(** * FetchingService: request execution and classification of request errors

    A shallow embedding of [FetchingService.fetch] and
    [FetchingService.handleRequestError].  The asynchronous code is written
    in a small state-and-exception monad over a [World] that holds the
    mutable counters of the health sinks and the chronological list of the
    effects the code performs on its collaborators (logger, notification
    surfaces, timers, transport). *)

From Stdlib Require Import ZArith String Ascii List Bool Lia.
From stdpp Require Import base option strings gmap.

Import ListNotations.
Set Warnings "-register-all".
Local Open Scope string_scope.
Local Open Scope Z_scope.

(** ** JavaScript strings and numbers used by the classifier *)

Module Js.

(** [haystack.includes(needle)]: [needle] occurs as a contiguous run. *)
Fixpoint includes (haystack needle : string) : bool :=
  if String.prefix needle haystack then true
  else match haystack with
       | EmptyString => false
       | String _ rest => includes rest needle
       end.

(** [s || d] on an optional string: [undefined] and [''] are falsy. *)
Definition or_else (s : option string) (d : string) : string :=
  match s with
  | Some (String c r) => String c r
  | _ => d
  end.

(** The Numbers that [parseInt] can return: [NaN], an integer that a
    double holds exactly ([Num 0] stands for both zeros), and the two
    infinities. *)
Inductive Number :=
| NaN
| Num (z : Z)
| PosInfinity
| NegInfinity.

(** [Number.isNaN]. *)
Definition isNaN (n : Number) : bool :=
  match n with NaN => true | _ => false end.

(** The Number value of an integer: the integer itself up to 2^53 in
    magnitude; above that the nearest double, that is the nearest
    integer with a significand of 53 bits, the even one on a tie; an
    infinity when that reaches 2^1024. *)
Definition numberOf (z : Z) : Number :=
  let m := Z.abs z in
  if m <=? 2 ^ 53 then Num z
  else
    let shift := Z.log2 m - 52 in
    let q := Z.shiftr m shift in
    let remainder := m mod 2 ^ shift in
    let half := 2 ^ (shift - 1) in
    let q' := if (half <? remainder) || ((remainder =? half) && Z.odd q)
              then q + 1 else q in
    let rounded := q' * 2 ^ shift in
    if 2 ^ 1024 <=? rounded
    then (if z <? 0 then NegInfinity else PosInfinity)
    else Num (Z.sgn z * rounded).

(** White space skipped by [parseInt], on 8-bit code units: TAB, LF, VT,
    FF, CR, SP and NBSP. *)
Definition isWhiteSpace (c : ascii) : bool :=
  let n := Z.of_N (N_of_ascii c) in
  (n =? 9) || (n =? 10) || (n =? 11) || (n =? 12) || (n =? 13)
  || (n =? 32) || (n =? 160).

Fixpoint trimStart (s : string) : string :=
  match s with
  | String c rest => if isWhiteSpace c then trimStart rest else s
  | EmptyString => EmptyString
  end.

(** Value of a radix-10 digit, if [c] is one. *)
Definition digit (c : ascii) : option Z :=
  let n := Z.of_N (N_of_ascii c) in
  if (48 <=? n) && (n <=? 57) then Some (n - 48) else None.

(** Reads the longest run of radix-10 digits at the front of [s],
    continuing the value [acc]. *)
Fixpoint readDigits (acc : Z) (s : string) : Z :=
  match s with
  | String c rest =>
      match digit c with
      | Some d => readDigits (10 * acc + d) rest
      | None => acc
      end
  | EmptyString => acc
  end.

Definition startsWithDigit (s : string) : bool :=
  match s with
  | String c _ => match digit c with Some _ => true | None => false end
  | EmptyString => false
  end.

(** The sign that [parseInt] reads off the trimmed text, and the text
    without its sign character. *)
Definition signOf (t : string) : Z :=
  match t with
  | String "-"%char _ => -1
  | _ => 1
  end.

Definition stripSign (t : string) : string :=
  match t with
  | String "-"%char rest => rest
  | String "+"%char rest => rest
  | _ => t
  end.

(** [parseInt(s, 10)]: skip leading white space, take an optional sign,
    read the longest digit prefix and return the Number value of the
    signed integer it denotes, rounded from the exact integer as a
    correctly rounding engine does; no digit at all gives [NaN]. *)
Definition parseInt10 (s : string) : Number :=
  let t := trimStart s in
  let body := stripSign t in
  if startsWithDigit body then numberOf (signOf t * readDigits 0 body) else NaN.

(** Every code unit of [s] is white space. *)
Fixpoint allWhiteSpace (s : string) : bool :=
  match s with
  | String c rest => isWhiteSpace c && allWhiteSpace rest
  | EmptyString => true
  end.

(** Every code unit of [s] is a radix-10 digit. *)
Fixpoint allDigits (s : string) : bool :=
  match s with
  | String c rest =>
      match digit c with Some _ => allDigits rest | None => false end
  | EmptyString => true
  end.

(** The integer that a digit string denotes in positional notation. *)
Fixpoint decimalValue (ds : string) : Z :=
  match ds with
  | String c rest =>
      default 0 (digit c) * 10 ^ Z.of_nat (String.length rest) + decimalValue rest
  | EmptyString => 0
  end.

(** An explicit sign in front of a digit string. *)
Inductive Sign := NoSign | Plus | Minus.

Definition signText (sg : Sign) : string :=
  match sg with NoSign => "" | Plus => "+" | Minus => "-" end.

Definition signFactor (sg : Sign) : Z :=
  match sg with Minus => -1 | _ => 1 end.

(** The text has, after leading white space and an optional sign, at
    least one digit. *)
Definition hasNumericPrefix (s : string) : Prop :=
  exists ws sg ds rest,
    s = ws +:+ signText sg +:+ ds +:+ rest
    /\ allWhiteSpace ws = true /\ ds <> "" /\ allDigits ds = true.

End Js.

(** ** Data model *)

(** [AuthenticationErrorReason], the two members the classifier uses. *)
Inductive AuthenticationErrorReason :=
| Unauthorized
| Forbidden.

(** The response attached to a request error: its headers, and the
    [errors] array that the debug message looks into (each entry's
    optional [message]). *)
Record ErrorResponse := {
  headers : option (gmap string string);
  errors : option (list (option string));
}.

(** [RequestError] of the request library: [name] is the literal
    'HttpError', so only the fields the classifier reads are kept. *)
Record RequestError := {
  status : Z;
  message : string;
  response : option ErrorResponse;
}.

(** What the catch clause of [fetch] can hand to the classifier: the
    declared parameter type [RequestError | (Error & { name: 'AbortError' })]
    and instances of [CancellationError] (tested with instanceof). *)
Inductive Exception :=
| HttpError (r : RequestError)
| AbortError (msg : string)
| CancellationError (original : option Exception).

(** Modelled from the spec: the error classes of the errors module, which
    is not part of the sources; the fields follow the taxonomy table and
    the constructor calls of the classifier.  [Thrown] is what [fetch] and
    the classifier raise: an exception as it is (the original re-raised,
    or a cancellation), or one of the provider errors. *)
Inductive Thrown :=
| Plain (ex : Exception)
| ProviderRequestNotFoundError (original : Exception)
| AuthenticationError (providerId : string)
    (reason : AuthenticationErrorReason) (original : Exception)
| ProviderRequestRateLimitError (original : Exception)
    (token : option string) (resetAt : option Js.Number)
| ProviderRequestClientError (original : Exception).

(** [Retriever]: the identity of a provider.  Its two methods act on the
    world, see [trackRequestException] and [resetRequestExceptionCount]. *)
Record Retriever := {
  id : string;
  name : string;
  statusPageUrl : option string;
  token : option string;
}.

(** [CancellationToken], as seen on entry to [fetch]. *)
Record CancellationToken := {
  isCancellationRequested : bool;
}.

Record FetchOptions := {
  cancellation : option CancellationToken;
  timeout : option Z;
  userAgent : option string;
}.

(** [RequestInit] as far as [fetch] looks into it: the headers; the other
    members (method, body, ...) pass through untouched. *)
Record RequestInit (InitRest : Type) := {
  initHeaders : option (gmap string string);
  initRest : InitRest;
}.
Arguments initHeaders {InitRest} _.
Arguments initRest {InitRest} _.

(** How a call completes: normally with a value, or by raising. *)
Inductive Completion (A : Type) :=
| Normal (a : A)
| Throw (e : Thrown).
Arguments Normal {A} a.
Arguments Throw {A} e.

(** ** The world: health sinks, logger, notifications, timers, transport *)

Section Service.

(** Types of the environment that the service never looks into: the
    transport's response, the request target, the remaining members of
    the request init and the log scope. *)
Context {Response RequestInfo InitRest LogScope : Type}.

(** The argument of the transport call [_fetch(url, { ...init, headers })];
    the proxy agent and the abort signal are fixed by the service. *)
Record TransportRequest := {
  requestUrl : RequestInfo;
  requestInit : option (RequestInit InitRest);
  requestHeaders : gmap string string;
}.

Inductive Event :=
| LoggerError (ex : Exception) (scope : option LogScope)
| ProviderTrackRequestException (provider : Retriever)
| ProviderResetRequestExceptionCount (provider : Retriever)
| SubscriptionTrackRequestException
| ShowIntegrationRequestFailed500WarningMessage (text : string)
| ShowIntegrationRequestTimedOutWarningMessage (providerName : string)
| ShowErrorMessage (text : string)
| OnCancellationRequested
| SetTimeout (ms : Z)
| ClearTimeout (timer : option Z)
| TransportFetch (request : TransportRequest).

(** Modelled from the spec: the exception counters behind the methods
    [trackRequestException] and [resetRequestExceptionCount], whose
    implementations are not part of the sources; one counter per provider
    id and one for [container.subscription].  [isDebugging] is
    [Logger.isDebugging], [logScope] what [getLogScope()] returns, and
    [effects] lists every call on a collaborator, oldest first. *)
Record World := {
  isDebugging : bool;
  logScope : option LogScope;
  providerExceptionCount : gmap string nat;
  subscriptionExceptionCount : nat;
  effects : list Event;
}.

Definition M (A : Type) : Type := World -> Completion A * World.

Definition ret {A} (a : A) : M A := fun w => (Normal a, w).

Definition throw {A} (e : Thrown) : M A := fun w => (Throw e, w).

Definition bind {A B} (m : M A) (k : A -> M B) : M B :=
  fun w =>
    match m w with
    | (Normal a, w') => k a w'
    | (Throw e, w') => (Throw e, w')
    end.

Definition get : M World := fun w => (Normal w, w).

Definition emit (e : Event) : M unit :=
  fun w =>
    (Normal tt,
     {| isDebugging := isDebugging w;
        logScope := logScope w;
        providerExceptionCount := providerExceptionCount w;
        subscriptionExceptionCount := subscriptionExceptionCount w;
        effects := effects w ++ [e] |}).

Definition updateProviderCount (provider : Retriever) (f : nat -> nat) : M unit :=
  fun w =>
    (Normal tt,
     {| isDebugging := isDebugging w;
        logScope := logScope w;
        providerExceptionCount :=
          <[id provider := f (default 0%nat (providerExceptionCount w !! id provider))]>
            (providerExceptionCount w);
        subscriptionExceptionCount := subscriptionExceptionCount w;
        effects := effects w |}).

Definition updateSubscriptionCount (f : nat -> nat) : M unit :=
  fun w =>
    (Normal tt,
     {| isDebugging := isDebugging w;
        logScope := logScope w;
        providerExceptionCount := providerExceptionCount w;
        subscriptionExceptionCount := f (subscriptionExceptionCount w);
        effects := effects w |}).

Notation "'let!' x ':=' m 'in' k" := (bind m (fun x => k))
  (at level 10, x name, m at level 100, k at level 200).
Notation "'do!' m ';' k" := (bind m (fun _ => k))
  (at level 10, m at level 100, k at level 200).

(** *** Calls on the collaborators *)

(** [Logger.error(ex, scope)]. *)
Definition loggerError (ex : Exception) (scope : option LogScope) : M unit :=
  emit (LoggerError ex scope).

(** Modelled from the spec: [provider.trackRequestException()], an
    interface method without implementation in the sources; it adds one
    to the exception count of the provider. *)
Definition trackRequestException (provider : Retriever) : M unit :=
  do! emit (ProviderTrackRequestException provider);
  updateProviderCount provider S.

(** Modelled from the spec: [provider.resetRequestExceptionCount()], an
    interface method without implementation in the sources; it resets the
    exception count of the provider to zero. *)
Definition resetRequestExceptionCount (provider : Retriever) : M unit :=
  do! emit (ProviderResetRequestExceptionCount provider);
  updateProviderCount provider (fun _ => 0%nat).

(** Modelled from the spec: [this.container.subscription.trackRequestException()],
    the tracking method of the aggregator-level sink, which is not part
    of the sources. *)
Definition subscriptionTrackRequestException : M unit :=
  do! emit SubscriptionTrackRequestException;
  updateSubscriptionCount S.

(** The text handed to [showIntegrationRequestFailed500WarningMessage]. *)
Definition failedToRespondText (provider : Retriever) : string :=
  name provider +:+ " failed to respond and might be experiencing issues." +:+
  match statusPageUrl provider with
  | Some (String c r) =>
      "Please visit the [" +:+ name provider +:+ " status page](" +:+ String c r
      +:+ ") for more information."
  | _ => ""
  end.

(** [(ex.response as any)?.errors?.[0]?.message ?? ex.message]. *)
Definition failureDetail (r : RequestError) : string :=
  match response r with
  | Some resp =>
      match errors resp with
      | Some (Some m :: _) => m
      | _ => message r
      end
  | None => message r
  end.

(** [ex.response?.headers?.['x-ratelimit-reset']]. *)
Definition rateLimitResetHeader (r : RequestError) : option string :=
  match response r with
  | Some resp =>
      match headers resp with
      | Some hs => hs !! "x-ratelimit-reset"
      | None => None
      end
  | None => None
  end.

(** [resetAt] as computed in the rate-limit branch (lines 109-117). *)
Definition rateLimitResetAt (r : RequestError) : option Js.Number :=
  match rateLimitResetHeader r with
  | Some reset =>
      let resetAt := Js.parseInt10 reset in
      if Js.isNaN resetAt then None else Some resetAt
  | None => None
  end.

(** The statement after the switch (lines 158-162), reached by [break]. *)
Definition showFailureWhenDebugging (provider : Retriever) (r : RequestError) : M unit :=
  let! w := get in
  if isDebugging w
  then emit (ShowErrorMessage (name provider +:+ " request failed: " +:+ failureDetail r))
  else ret tt.

(** ** [handleRequestError] *)
Definition handleRequestError (provider : Retriever) (ex : Exception)
    (scope : option LogScope) : M unit :=
  match ex with
  | CancellationError _ => throw (Plain ex)
  | AbortError _ => throw (Plain (CancellationError (Some ex)))
  | HttpError r =>
      let s := status r in
      if (s =? 404) || (s =? 410) || (s =? 422) then
        throw (ProviderRequestNotFoundError ex)
      else if s =? 401 then
        throw (AuthenticationError (id provider) Unauthorized ex)
      else if s =? 403 then
        if Js.includes (message r) "rate limit" then
          throw (ProviderRequestRateLimitError ex (token provider) (rateLimitResetAt r))
        else
          throw (AuthenticationError "gitkraken" Forbidden ex)
      else if s =? 500 then
        do! loggerError ex scope;
        match response r with
        | Some _ =>
            do! subscriptionTrackRequestException;
            emit (ShowIntegrationRequestFailed500WarningMessage (failedToRespondText provider))
        | None => ret tt
        end
      else if s =? 502 then
        do! loggerError ex scope;
        do! (if Js.includes (message r) "timeout" then
               do! trackRequestException provider;
               emit (ShowIntegrationRequestTimedOutWarningMessage (name provider))
             else ret tt);
        showFailureWhenDebugging provider r
      else if s =? 503 then
        do! loggerError ex scope;
        do! subscriptionTrackRequestException;
        emit (ShowIntegrationRequestFailed500WarningMessage (failedToRespondText provider))
      else if (400 <=? s) && (s <? 500) then
        throw (ProviderRequestClientError ex)
      else
        showFailureWhenDebugging provider r
  end.

(** ** [fetch] *)

(** How the promise returned by the transport settles.  Aborting (by the
    timer or by the cancellation token) only asks the transport to stop,
    so an abort shows up here as a rejection chosen by the transport. *)
Inductive Settlement :=
| Resolves (result : Response)
| Rejects (ex : Exception).

(** [options?.cancellation?.isCancellationRequested]. *)
Definition cancellationRequested (options : option FetchOptions) : bool :=
  match options with
  | Some o =>
      match cancellation o with
      | Some c => isCancellationRequested c
      | None => false
      end
  | None => false
  end.

(** [options?.cancellation != null]. *)
Definition hasCancellation (options : option FetchOptions) : bool :=
  match options with
  | Some o => match cancellation o with Some _ => true | None => false end
  | None => false
  end.

(** [options?.timeout]. *)
Definition givenTimeout (options : option FetchOptions) : option Z :=
  match options with
  | Some o => timeout o
  | None => None
  end.

(** The value of the local [timeout] after lines 61-67. *)
Definition effectiveTimeout (options : option FetchOptions) : option Z :=
  match options with
  | Some o =>
      match cancellation o with
      | Some _ => timeout o
      | None => match timeout o with Some t => Some t | None => Some (60 * 1000) end
      end
  | None => Some (60 * 1000)
  end.

(** [{ 'User-Agent': options?.userAgent || '', ...init?.headers }]: the
    members of [init.headers] win over the service's entry. *)
Definition mergedHeaders (init : option (RequestInit InitRest))
    (options : option FetchOptions) : gmap string string :=
  let ua := Js.or_else (match options with Some o => userAgent o | None => None end) "" in
  match init with
  | Some i =>
      match initHeaders i with
      | Some hs => hs ∪ {[ "User-Agent" := ua ]}
      | None => {[ "User-Agent" := ua ]}
      end
  | None => {[ "User-Agent" := ua ]}
  end.

(** The body of [fetch], with [settles] telling how [await promise]
    turns out.  The callback of [promise.finally] is registered before
    the await, so the timer is cleared before the code after the await
    runs.  The only statement of the try block that can raise is the
    await: the methods of the provider return nothing and do not raise. *)
Definition fetch (provider : Retriever) (url : RequestInfo)
    (init : option (RequestInit InitRest)) (options : option FetchOptions)
    (settles : Settlement) : M Response :=
  let! w0 := get in
  let scope := logScope w0 in
  if cancellationRequested options then throw (Plain (CancellationError None))
  else
    let timeout := effectiveTimeout options in
    do! (if hasCancellation options then emit OnCancellationRequested else ret tt);
    do! (match timeout with
         | Some ms => emit (SetTimeout ms)
         | None => ret tt
         end);
    let timer := timeout in
    do! emit (TransportFetch {| requestUrl := url;
                                requestInit := init;
                                requestHeaders := mergedHeaders init options |});
    do! emit (ClearTimeout timer);
    match settles with
    | Resolves result =>
        do! resetRequestExceptionCount provider;
        ret result
    | Rejects ex =>
        do! handleRequestError provider ex scope;
        throw (Plain ex)
    end.

(** ** Observations on the list of effects *)

(** Delays of the timers armed with [setTimeout], oldest first. *)
Fixpoint timersArmed (es : list Event) : list Z :=
  match es with
  | SetTimeout ms :: rest => ms :: timersArmed rest
  | _ :: rest => timersArmed rest
  | [] => []
  end.

(** Number of calls of [provider.trackRequestException()]. *)
Fixpoint providerTrackCalls (es : list Event) : nat :=
  match es with
  | ProviderTrackRequestException _ :: rest => S (providerTrackCalls rest)
  | _ :: rest => providerTrackCalls rest
  | [] => 0%nat
  end.

(** Number of calls of [container.subscription.trackRequestException()]. *)
Fixpoint subscriptionTrackCalls (es : list Event) : nat :=
  match es with
  | SubscriptionTrackRequestException :: rest => S (subscriptionTrackCalls rest)
  | _ :: rest => subscriptionTrackCalls rest
  | [] => 0%nat
  end.

End Service.

Arguments World : clear implicits.
Arguments Event : clear implicits.
Arguments TransportRequest : clear implicits.
Arguments Settlement : clear implicits.

(** ** Sample inputs *)

Module Sample.

(** A provider with a status page and a token. *)
Definition github : Retriever :=
  {| id := "github";
     name := "GitHub";
     statusPageUrl := Some "https://www.githubstatus.com";
     token := Some "ghp_token" |}.

(** A world in which nothing has happened yet, except that the provider
    has three tracked exceptions. *)
Definition world0 : World string unit string :=
  {| isDebugging := false;
     logScope := Some "[1a] FetchingService.fetch";
     providerExceptionCount := {[ "github" := 3%nat ]};
     subscriptionExceptionCount := 0;
     effects := [] |}.

Definition httpError (code : Z) (text : string) (resp : option ErrorResponse) : RequestError :=
  {| status := code; message := text; response := resp |}.

Definition noHeaders : ErrorResponse :=
  {| headers := Some ∅; errors := None |}.

(** A response whose only header is x-ratelimit-reset. *)
Definition resetHeader (value : string) : ErrorResponse :=
  {| headers := Some {[ "x-ratelimit-reset" := value ]}; errors := None |}.

Definition rateLimited (value : string) : RequestError :=
  httpError 403 "API rate limit exceeded for user" (Some (resetHeader value)).

Definition serverError : RequestError :=
  httpError 500 "Internal Server Error" (Some noHeaders).

(** Options whose cancellation token is already signalled, with a
    timeout of 10 ms. *)
Definition cancelledOptions : FetchOptions :=
  {| cancellation := Some {| isCancellationRequested := true |};
     timeout := Some 10;
     userAgent := None |}.

(** Options with a live cancellation token and no timeout. *)
Definition tokenOptions : FetchOptions :=
  {| cancellation := Some {| isCancellationRequested := false |};
     timeout := None;
     userAgent := Some "GitLens/14.0" |}.

Definition url : string := "https://api.github.com/user".

End Sample.

(** ** The rest of the service: causes, observations, the user agent *)

(** The exception that a raised error wraps: the [original] of a
    cancellation or of a provider error. *)
Definition originalOf (t : Thrown) : option Exception :=
  match t with
  | Plain (CancellationError original) => original
  | Plain _ => None
  | ProviderRequestNotFoundError original => Some original
  | AuthenticationError _ _ original => Some original
  | ProviderRequestRateLimitError original _ _ => Some original
  | ProviderRequestClientError original => Some original
  end.

(** What the [userAgent] getter reads: members of the container, and the
    name and version of the editor and the platform of the host. *)
Record Container := {
  debugging : bool;
  prerelease : bool;
  version : string;
}.

Record Host := {
  appName : string;
  codeVersion : string;
  platform : string;
}.

(** The [userAgent] getter (lines 46-52); it is memoized, and computed
    from members that do not change. *)
Definition userAgentOf (container : Container) (host : Host) : string :=
  (if debugging container then "GitLens-Debug"
   else if prerelease container then "GitLens-Pre"
   else "GitLens")
  +:+ "/" +:+ version container
  +:+ " (" +:+ appName host +:+ "/" +:+ codeVersion host +:+ "; " +:+ platform host +:+ ")".

Section Observations.

Context {RequestInfo InitRest LogScope : Type}.

Local Abbreviation World := (World RequestInfo InitRest LogScope).
Local Abbreviation Event := (Event RequestInfo InitRest LogScope).
Local Abbreviation TransportRequest := (TransportRequest RequestInfo InitRest).

(** The effects that only the classifier performs. *)
Definition isClassifierEffect (e : Event) : bool :=
  match e with
  | LoggerError _ _
  | ProviderTrackRequestException _
  | SubscriptionTrackRequestException
  | ShowIntegrationRequestFailed500WarningMessage _
  | ShowIntegrationRequestTimedOutWarningMessage _
  | ShowErrorMessage _ => true
  | _ => false
  end.

(** Arguments of the calls of [Logger.error], oldest first. *)
Definition errorsLogged (es : list Event) : list (Exception * option LogScope) :=
  omap (fun e => match e with LoggerError ex scope => Some (ex, scope) | _ => None end) es.

(** Texts shown with [window.showErrorMessage]. *)
Definition errorMessagesShown (es : list Event) : list string :=
  omap (fun e => match e with ShowErrorMessage text => Some text | _ => None end) es.

(** Arguments of the calls of [clearTimeout]. *)
Definition timersCleared (es : list Event) : list (option Z) :=
  omap (fun e => match e with ClearTimeout timer => Some timer | _ => None end) es.

(** Arguments of the calls of the transport. *)
Definition transportRequests (es : list Event) : list TransportRequest :=
  omap (fun e => match e with TransportFetch request => Some request | _ => None end) es.

(** The world with further effects appended. *)
Definition appendEffects (es : list Event) (w : World) : World :=
  {| isDebugging := isDebugging w;
     logScope := logScope w;
     providerExceptionCount := providerExceptionCount w;
     subscriptionExceptionCount := subscriptionExceptionCount w;
     effects := effects w ++ es |}.

(** The effects of [fetch] up to the settlement of the transport's
    promise, in a call that is not cancelled on entry. *)
Definition setupEffects (url : RequestInfo) (init : option (RequestInit InitRest))
    (options : option FetchOptions) : list Event :=
  (if hasCancellation options then [OnCancellationRequested] else [])
  ++ match effectiveTimeout options with
     | Some ms => [SetTimeout ms]
     | None => []
     end
  ++ [TransportFetch {| requestUrl := url;
                        requestInit := init;
                        requestHeaders := mergedHeaders init options |};
      ClearTimeout (effectiveTimeout options)].

(** [init?.headers] as a map, empty when [init] or its headers are absent. *)
Definition initHeadersOf (init : option (RequestInit InitRest)) : gmap string string :=
  match init with
  | Some i => default ∅ (initHeaders i)
  | None => ∅
  end.

(** [options?.userAgent]. *)
Definition givenUserAgent (options : option FetchOptions) : option string :=
  match options with
  | Some o => userAgent o
  | None => None
  end.

End Observations.

(** ** [CopyCurrentBranchCommand.execute] *)

Module CopyCurrentBranch.

Section Command.

(** Types of the editor API and of the git layer that the command only
    passes around, and the type of what its collaborators reject with. *)
Context {Uri GitUri TextEditor Repository Err : Type}.

(** [GitBranch], as far as the command reads it. *)
Record GitBranch := {
  name : string;
}.

(** How an awaited promise settles. *)
Inductive Outcome (A : Type) :=
| Resolved (a : A)
| Rejected (ex : Err).
Arguments Resolved {A} a.
Arguments Rejected {A} ex.

(** The collaborators of the command, none of which is part of the
    sources: [getCommandUri], [GitUri.fromUri],
    [RepositoryPicker.getBestRepositoryOrShow], [repository.getBranch]
    and [env.clipboard.writeText], each with the way its promise
    settles. *)
Record Collaborators := {
  getCommandUri : option Uri -> option TextEditor -> option Uri;
  fromUri : Uri -> Outcome GitUri;
  getBestRepositoryOrShow :
    option GitUri -> option TextEditor -> string -> Outcome (option Repository);
  getBranch : Repository -> Outcome (option GitBranch);
  writeText : string -> Outcome unit;
}.

(** The calls the command makes, in the order it makes them. *)
Inductive Effect :=
| FromUri (uri : Uri)
| GetBestRepositoryOrShow (gitUri : option GitUri) (editor : option TextEditor)
    (title : string)
| GetBranch (repository : Repository)
| WriteText (text : string)
| LoggerError (ex : Err) (context : string)
| ShowErrorMessage (text : string).

Definition C (A : Type) : Type := list Effect -> Outcome A * list Effect.

Definition ret {A} (a : A) : C A := fun es => (Resolved a, es).

Definition bind {A B} (m : C A) (k : A -> C B) : C B :=
  fun es =>
    match m es with
    | (Resolved a, es') => k a es'
    | (Rejected ex, es') => (Rejected ex, es')
    end.

(** A call that returns at once. *)
Definition call (e : Effect) : C unit :=
  fun es => (Resolved tt, (es ++ [e])%list).

(** [await] on a call [e] whose promise settles as [o]. *)
Definition await {A} (e : Effect) (o : Outcome A) : C A :=
  fun es => (o, (es ++ [e])%list).

(** [try { body } catch (ex) { handler }]. *)
Definition tryCatch {A} (body : C A) (handler : Err -> C A) : C A :=
  fun es =>
    match body es with
    | (Rejected ex, es') => handler ex es'
    | done => done
    end.

Notation "'let!' x ':=' m 'in' k" := (bind m (fun x => k))
  (at level 10, x name, m at level 100, k at level 200).
Notation "'do!' m ';' k" := (bind m (fun _ => k))
  (at level 10, m at level 100, k at level 200).

Definition title : string := "Copy Current Branch Name".

Definition unableToCopy : string :=
  "Unable to copy current branch name. See output channel for more details".

(** [execute(editor?, uri?)] (lines 14-31). *)
Definition execute (c : Collaborators) (editor : option TextEditor)
    (uri : option Uri) : C unit :=
  let uri := getCommandUri c uri editor in
  let! gitUri :=
    match uri with
    | Some u => let! g := await (FromUri u) (fromUri c u) in ret (Some g)
    | None => ret None
    end in
  let! repository :=
    await (GetBestRepositoryOrShow gitUri editor title)
      (getBestRepositoryOrShow c gitUri editor title) in
  match repository with
  | None => ret tt
  | Some repository =>
      tryCatch
        (let! branch := await (GetBranch repository) (getBranch c repository) in
         match branch with
         | Some {| name := String a rest |} =>
             await (WriteText (String a rest)) (writeText c (String a rest))
         | _ => ret tt
         end)
        (fun ex =>
           do! call (LoggerError ex "CopyCurrentBranchCommand");
           call (ShowErrorMessage unableToCopy))
  end.

(** The git uri that the repository picker is given: how
    [GitUri.fromUri] settles on the uri of the command, or nothing when
    there is no such uri. *)
Definition pickerUri (c : Collaborators) (editor : option TextEditor)
    (uri : option Uri) : Outcome (option GitUri) :=
  match getCommandUri c uri editor with
  | Some u =>
      match fromUri c u with
      | Resolved g => Resolved (Some g)
      | Rejected ex => Rejected ex
      end
  | None => Resolved None
  end.

(** The calls for [GitUri.fromUri] and for the repository picker that
    open every run in which the former resolves. *)
Definition opening (c : Collaborators) (editor : option TextEditor)
    (uri : option Uri) (gitUri : option GitUri) : list Effect :=
  (match getCommandUri c uri editor with
   | Some u => [FromUri u]
   | None => []
   end ++ [GetBestRepositoryOrShow gitUri editor title])%list.

(** Texts handed to [env.clipboard.writeText]. *)
Definition textsWritten (es : list Effect) : list string :=
  omap (fun e => match e with WriteText text => Some text | _ => None end) es.

(** Texts shown with [window.showErrorMessage]. *)
Definition messagesShown (es : list Effect) : list string :=
  omap (fun e => match e with ShowErrorMessage text => Some text | _ => None end) es.

End Command.

Arguments Outcome : clear implicits.
Arguments Resolved {Err A} a.
Arguments Rejected {Err A} ex.
Arguments Collaborators : clear implicits.
Arguments Effect : clear implicits.

(** A repository on branch main whose collaborators all resolve, and
    variants of it. *)
Definition onMain : Collaborators string string unit string string :=
  {| getCommandUri := fun uri _ => uri;
     fromUri := fun uri => Resolved ("git:" +:+ uri);
     getBestRepositoryOrShow := fun _ _ _ => Resolved (Some "/repo");
     getBranch := fun _ => Resolved (Some {| name := "main" |});
     writeText := fun _ => Resolved tt |}.

Definition branchLookupFails : Collaborators string string unit string string :=
  {| getCommandUri := fun uri _ => uri;
     fromUri := fun uri => Resolved ("git:" +:+ uri);
     getBestRepositoryOrShow := fun _ _ _ => Resolved (Some "/repo");
     getBranch := fun _ => Rejected "git exited with code 128";
     writeText := fun _ => Resolved tt |}.

Definition pickerDismissed : Collaborators string string unit string string :=
  {| getCommandUri := fun uri _ => uri;
     fromUri := fun uri => Resolved ("git:" +:+ uri);
     getBestRepositoryOrShow := fun _ _ _ => Resolved None;
     getBranch := fun _ => Resolved (Some {| name := "main" |});
     writeText := fun _ => Resolved tt |}.

Definition pickerFails : Collaborators string string unit string string :=
  {| getCommandUri := fun uri _ => uri;
     fromUri := fun uri => Resolved ("git:" +:+ uri);
     getBestRepositoryOrShow := fun _ _ _ => Rejected "no repositories";
     getBranch := fun _ => Resolved (Some {| name := "main" |});
     writeText := fun _ => Resolved tt |}.

End CopyCurrentBranch.

(** ** Further sample inputs *)

Module MoreSamples.

(** The sample world with the logger in debugging mode. *)
Definition debugWorld : World string unit string :=
  {| isDebugging := true;
     logScope := logScope Sample.world0;
     providerExceptionCount := providerExceptionCount Sample.world0;
     subscriptionExceptionCount := 0;
     effects := [] |}.

Definition badGateway : RequestError :=
  Sample.httpError 502 "upstream request timeout" None.

Definition teapot : RequestError :=
  Sample.httpError 418 "I'm a teapot" None.

Definition unavailable : RequestError :=
  Sample.httpError 503 "Service Unavailable" None.

Definition bareServerError : RequestError :=
  Sample.httpError 500 "Internal Server Error" None.

(** An init with one header of the caller. *)
Definition acceptJson : RequestInit unit :=
  {| initHeaders := Some {[ "Accept" := "application/json" ]}; initRest := tt |}.

Definition prereleaseContainer : Container :=
  {| debugging := true; prerelease := true; version := "14.0.1" |}.

Definition desktop : Host :=
  {| appName := "Visual Studio Code"; codeVersion := "1.80.0"; platform := "linux" |}.

(** Options that carry the user agent of the service. *)
Definition serviceOptions : FetchOptions :=
  {| cancellation := None;
     timeout := Some 5000;
     userAgent := Some (userAgentOf prereleaseContainer desktop) |}.

End MoreSamples.

(** * Properties *)

Section Properties.

Context {Response RequestInfo InitRest LogScope : Type}.

Local Abbreviation World := (World RequestInfo InitRest LogScope).
Local Abbreviation Event := (Event RequestInfo InitRest LogScope).
Local Abbreviation Settlement := (Settlement Response).

(** ** Facts about [parseInt] *)

Lemma digit_not_white (c : ascii) (d : Z) :
  Js.digit c = Some d -> Js.isWhiteSpace c = false.
Proof.
  destruct c as [[] [] [] [] [] [] [] []]; vm_compute; congruence.
Qed.

Lemma digit_not_sign (c : ascii) (d : Z) :
  Js.digit c = Some d -> c <> "-"%char /\ c <> "+"%char.
Proof.
  destruct c as [[] [] [] [] [] [] [] []]; vm_compute; intros H;
    split; congruence.
Qed.

Lemma startsWithDigit_cons (c : ascii) (s : string) :
  Js.startsWithDigit (String c s) = true -> exists d, Js.digit c = Some d.
Proof.
  cbn. destruct (Js.digit c) as [d|]; [eauto | discriminate].
Qed.

Lemma trimStart_digit (s : string) :
  Js.startsWithDigit s = true -> Js.trimStart s = s.
Proof.
  destruct s as [|c s]; [reflexivity|].
  intros [d Hd]%startsWithDigit_cons. cbn.
  now rewrite (digit_not_white c d Hd).
Qed.

Lemma stripSign_digit (s : string) :
  Js.startsWithDigit s = true -> Js.stripSign s = s /\ Js.signOf s = 1.
Proof.
  destruct s as [|c s]; [discriminate|].
  intros [d Hd]%startsWithDigit_cons.
  destruct (digit_not_sign c d Hd) as [Hm Hp].
  destruct c as [[] [] [] [] [] [] [] []]; cbn; try (split; reflexivity);
    congruence.
Qed.

Lemma append_cons (c : ascii) (s t : string) :
  String c s +:+ t = String c (s +:+ t).
Proof. reflexivity. Qed.

Lemma append_empty (t : string) : "" +:+ t = t.
Proof. reflexivity. Qed.

Lemma startsWithDigit_app (ds rest : string) :
  ds <> "" -> Js.allDigits ds = true -> Js.startsWithDigit (ds +:+ rest) = true.
Proof.
  destruct ds as [|c ds]; [congruence|]. rewrite append_cons. cbn.
  destruct (Js.digit c); [reflexivity | discriminate].
Qed.

Lemma readDigits_stop (acc : Z) (rest : string) :
  Js.startsWithDigit rest = false -> Js.readDigits acc rest = acc.
Proof.
  destruct rest as [|c rest]; [reflexivity|]. cbn.
  destruct (Js.digit c); [discriminate | reflexivity].
Qed.

(** Reading a digit string shifts the accumulator by its length and adds
    its positional value. *)
Lemma readDigits_app (ds rest : string) :
  Js.allDigits ds = true ->
  forall acc,
    Js.readDigits acc (ds +:+ rest)
    = Js.readDigits (acc * 10 ^ Z.of_nat (String.length ds) + Js.decimalValue ds) rest.
Proof.
  induction ds as [|c ds IH]; intros Hall acc.
  - rewrite append_empty. cbn. f_equal. lia.
  - cbn [Js.allDigits] in Hall. rewrite append_cons. cbn [Js.readDigits].
    destruct (Js.digit c) as [d|] eqn:Hd; [|discriminate].
    rewrite (IH Hall). f_equal.
    cbn [String.length Js.decimalValue]. rewrite Hd.
    change (default 0 (Some d)) with d.
    rewrite Nat2Z.inj_succ, Z.pow_succ_r by lia. ring.
Qed.

(** [parseInt] of an optionally signed digit string followed by text
    that does not go on with a digit. *)
Lemma parseInt10_prefix (sg : Js.Sign) (ds rest : string) :
  ds <> "" -> Js.allDigits ds = true -> Js.startsWithDigit rest = false ->
  Js.parseInt10 (Js.signText sg +:+ ds +:+ rest)
  = Js.numberOf (Js.signFactor sg * Js.decimalValue ds).
Proof.
  intros Hne Hall Hrest.
  pose proof (startsWithDigit_app ds rest Hne Hall) as Hstart.
  assert (Hread : Js.readDigits 0 (ds +:+ rest) = Js.decimalValue ds).
  { rewrite readDigits_app by assumption. rewrite readDigits_stop by assumption. lia. }
  unfold Js.parseInt10.
  destruct sg; cbn [Js.signText Js.signFactor];
    rewrite ?append_cons, ?append_empty.
  - rewrite (trimStart_digit _ Hstart).
    destruct (stripSign_digit _ Hstart) as [-> ->].
    now rewrite Hstart, Hread.
  - change (Js.trimStart (String "+" (ds +:+ rest))) with (String "+" (ds +:+ rest)).
    change (Js.stripSign (String "+" (ds +:+ rest))) with (ds +:+ rest).
    change (Js.signOf (String "+" (ds +:+ rest))) with 1.
    now rewrite Hstart, Hread.
  - change (Js.trimStart (String "-" (ds +:+ rest))) with (String "-" (ds +:+ rest)).
    change (Js.stripSign (String "-" (ds +:+ rest))) with (ds +:+ rest).
    change (Js.signOf (String "-" (ds +:+ rest))) with (-1).
    now rewrite Hstart, Hread.
Qed.

(** ** Classification by status *)

Ltac classify Hs :=
  unfold handleRequestError; rewrite Hs; cbn [Z.eqb Pos.eqb orb andb].

(** C9: a request error whose status is 404, 410 or 422 is raised as
    ProviderRequestNotFoundError around the original exception, with no
    effect on the world. *)
Theorem not_found_statuses (provider : Retriever) (r : RequestError)
    (scope : option LogScope) (w : World) :
  status r = 404 \/ status r = 410 \/ status r = 422 ->
  handleRequestError provider (HttpError r) scope w
  = (Throw (ProviderRequestNotFoundError (HttpError r)), w).
Proof.
  intros [Hs | [Hs | Hs]]; classify Hs; reflexivity.
Qed.

(** C8: a request error with status 401 is raised as AuthenticationError
    with reason Unauthorized, the id of the calling provider and the
    original exception as cause. *)
Theorem unauthorized_carries_provider_id (provider : Retriever) (r : RequestError)
    (scope : option LogScope) (w : World) :
  status r = 401 ->
  handleRequestError provider (HttpError r) scope w
  = (Throw (AuthenticationError (id provider) Unauthorized (HttpError r)), w).
Proof.
  intros Hs; classify Hs; reflexivity.
Qed.

(** C5: a request error with status 403 whose message does not contain
    'rate limit' is raised as AuthenticationError with reason Forbidden
    and the literal 'gitkraken', whatever the id of the provider. *)
Theorem forbidden_carries_fixed_identity (provider : Retriever) (r : RequestError)
    (scope : option LogScope) (w : World) :
  status r = 403 ->
  Js.includes (message r) "rate limit" = false ->
  handleRequestError provider (HttpError r) scope w
  = (Throw (AuthenticationError "gitkraken" Forbidden (HttpError r)), w).
Proof.
  intros Hs Hm; classify Hs; rewrite Hm; reflexivity.
Qed.

(** C6: an instance of CancellationError is raised again as it is, with
    no effect on the world; an AbortError is raised as a new
    CancellationError whose original is that AbortError. *)
Theorem cancellation_short_circuits (provider : Retriever)
    (scope : option LogScope) (w : World) :
  (forall original,
      handleRequestError provider (CancellationError original) scope w
      = (Throw (Plain (CancellationError original)), w))
  /\ (forall msg,
      handleRequestError provider (AbortError msg) scope w
      = (Throw (Plain (CancellationError (Some (AbortError msg)))), w)).
Proof.
  split; intros; reflexivity.
Qed.


(** ** Numbers *)

Lemma digit_range (c : ascii) (d : Z) : Js.digit c = Some d -> 0 <= d <= 9.
Proof.
  unfold Js.digit. cbv zeta.
  destruct (_ && _) eqn:Hr; [|discriminate].
  apply andb_true_iff in Hr as [Hlo%Z.leb_le Hhi%Z.leb_le].
  intros [= <-]. lia.
Qed.

Lemma decimalValue_nonneg (ds : string) : 0 <= Js.decimalValue ds.
Proof.
  induction ds as [|c ds IH]; cbn [Js.decimalValue]; [lia|].
  assert (0 <= 10 ^ Z.of_nat (String.length ds)) by (apply Z.pow_nonneg; lia).
  destruct (Js.digit c) as [d|] eqn:Hd.
  - change (default 0 (Some d)) with d. apply digit_range in Hd. nia.
  - change (default 0 (@None Z)) with 0. lia.
Qed.

(** Up to 2^53 in magnitude an integer is its own Number value. *)
Lemma numberOf_exact (z : Z) : Z.abs z <= 2 ^ 53 -> Js.numberOf z = Js.Num z.
Proof.
  intros Hz%Z.leb_le. unfold Js.numberOf. cbv zeta. now rewrite Hz.
Qed.

Lemma numberOf_not_NaN (z : Z) : Js.isNaN (Js.numberOf z) = false.
Proof.
  unfold Js.numberOf. cbv zeta.
  destruct (Z.abs z <=? 2 ^ 53); [reflexivity|].
  destruct (2 ^ 1024 <=? _); [destruct (z <? 0)|]; reflexivity.
Qed.

Lemma signed_value_bound (sg : Js.Sign) (ds : string) :
  Js.decimalValue ds <= 2 ^ 53 ->
  Z.abs (Js.signFactor sg * Js.decimalValue ds) <= 2 ^ 53.
Proof.
  pose proof (decimalValue_nonneg ds). intros Hb.
  destruct sg; cbn [Js.signFactor]; lia.
Qed.

(** ** Leading white space and the numeric prefix *)

Lemma trimStart_white (ws t : string) :
  Js.allWhiteSpace ws = true -> Js.trimStart (ws +:+ t) = Js.trimStart t.
Proof.
  induction ws as [|c ws IH]; [reflexivity|].
  cbn [Js.allWhiteSpace]. intros [Hc Hws]%andb_true_iff.
  rewrite append_cons. cbn [Js.trimStart]. rewrite Hc. now apply IH.
Qed.

Lemma parseInt10_white (ws t : string) :
  Js.allWhiteSpace ws = true -> Js.parseInt10 (ws +:+ t) = Js.parseInt10 t.
Proof.
  intros Hws. unfold Js.parseInt10. now rewrite trimStart_white.
Qed.

Lemma trimStart_split (s : string) :
  exists ws, s = ws +:+ Js.trimStart s /\ Js.allWhiteSpace ws = true.
Proof.
  induction s as [|c s (ws & Hs & Hws)]; [now exists ""|].
  cbn [Js.trimStart]. destruct (Js.isWhiteSpace c) eqn:Hc.
  - exists (String c ws). rewrite append_cons, <- Hs. split; [reflexivity|].
    cbn [Js.allWhiteSpace]. now rewrite Hc.
  - now exists "".
Qed.

Lemma stripSign_split (t : string) :
  exists sg, t = Js.signText sg +:+ Js.stripSign t.
Proof.
  destruct t as [|c t]; [now exists Js.NoSign|].
  destruct c as [[] [] [] [] [] [] [] []];
    first [ now exists Js.NoSign | now exists Js.Plus | now exists Js.Minus ].
Qed.

(** A digit after white space and a sign makes [parseInt] return a
    number, and nothing else does. *)
Lemma parses_iff_numeric_prefix (s : string) :
  Js.isNaN (Js.parseInt10 s) = false <-> Js.hasNumericPrefix s.
Proof.
  split.
  - unfold Js.parseInt10. cbv zeta.
    destruct (Js.startsWithDigit (Js.stripSign (Js.trimStart s))) eqn:Hd;
      [intros _ | discriminate].
    destruct (trimStart_split s) as (ws & Hs & Hws).
    destruct (stripSign_split (Js.trimStart s)) as (sg & Ht).
    destruct (Js.stripSign (Js.trimStart s)) as [|c body]; [discriminate|].
    exists ws, sg, (String c ""), body.
    split; [now rewrite Hs at 1; rewrite Ht at 1|].
    split; [assumption|]. split; [discriminate|].
    apply startsWithDigit_cons in Hd as [d Hd]. cbn. now rewrite Hd.
  - intros (ws & sg & ds & rest & -> & Hws & Hne & Hall).
    rewrite parseInt10_white by assumption.
    pose proof (startsWithDigit_app ds rest Hne Hall) as Hstart.
    unfold Js.parseInt10. cbv zeta.
    destruct sg; cbn [Js.signText]; rewrite ?append_cons, ?append_empty.
    + rewrite (trimStart_digit _ Hstart).
      destruct (stripSign_digit _ Hstart) as [-> _].
      rewrite Hstart. apply numberOf_not_NaN.
    + change (Js.trimStart (String "+" (ds +:+ rest))) with (String "+" (ds +:+ rest)).
      change (Js.stripSign (String "+" (ds +:+ rest))) with (ds +:+ rest).
      rewrite Hstart. apply numberOf_not_NaN.
    + change (Js.trimStart (String "-" (ds +:+ rest))) with (String "-" (ds +:+ rest)).
      change (Js.stripSign (String "-" (ds +:+ rest))) with (ds +:+ rest).
      rewrite Hstart. apply numberOf_not_NaN.
Qed.

(** [resetAt] for a header, as the rate-limit branch computes it. *)
Lemma resetAt_of_header (r : RequestError) (header : string) :
  rateLimitResetHeader r = Some header ->
  (forall n, Js.parseInt10 header = n -> Js.isNaN n = false ->
             rateLimitResetAt r = Some n)
  /\ (rateLimitResetAt r = None <-> ~ Js.hasNumericPrefix header).
Proof.
  intros Hh. unfold rateLimitResetAt. rewrite Hh. cbv zeta.
  rewrite <- parses_iff_numeric_prefix. split.
  - now intros n -> ->.
  - destruct (Js.isNaN (Js.parseInt10 header)); split;
      first [discriminate | congruence | reflexivity].
Qed.

Lemma rate_limit_raised (provider : Retriever) (r : RequestError)
    (scope : option LogScope) (w : World) :
  status r = 403 ->
  Js.includes (message r) "rate limit" = true ->
  handleRequestError provider (HttpError r) scope w
  = (Throw (ProviderRequestRateLimitError (HttpError r) (token provider)
              (rateLimitResetAt r)), w).
Proof.
  intros Hs Hm; classify Hs; rewrite Hm; reflexivity.
Qed.


(** C10, within the range of exact Numbers: in the rate-limit branch, a
    header that has, after leading white space and an optional sign, a
    digit string followed by anything that is not a digit gives a
    resetAt that is present: the Number value of the signed integer of
    that digit string, which is that integer itself when the digits
    denote at most 2^53 (as for '1700000000.5' and '123abc') and the
    nearest double above; resetAt is absent exactly when the header has
    no digit after leading white space and a sign. *)
Theorem rate_limit_reset_numeric_prefix (provider : Retriever) (r : RequestError)
    (scope : option LogScope) (w : World) (header : string) :
  status r = 403 ->
  Js.includes (message r) "rate limit" = true ->
  rateLimitResetHeader r = Some header ->
  exists resetAt,
    handleRequestError provider (HttpError r) scope w
    = (Throw (ProviderRequestRateLimitError (HttpError r) (token provider) resetAt), w)
    /\ (forall ws sg ds rest,
          header = ws +:+ Js.signText sg +:+ ds +:+ rest ->
          Js.allWhiteSpace ws = true ->
          ds <> "" -> Js.allDigits ds = true -> Js.startsWithDigit rest = false ->
          resetAt = Some (Js.numberOf (Js.signFactor sg * Js.decimalValue ds))
          /\ (Js.decimalValue ds <= 2 ^ 53 ->
              resetAt = Some (Js.Num (Js.signFactor sg * Js.decimalValue ds))))
    /\ (resetAt = None <-> ~ Js.hasNumericPrefix header)
    /\ (header = "1700000000.5" -> resetAt = Some (Js.Num 1700000000))
    /\ (header = "123abc" -> resetAt = Some (Js.Num 123)).
Proof.
  intros Hs Hm Hh. exists (rateLimitResetAt r). split; [now apply rate_limit_raised|].
  destruct (resetAt_of_header r header Hh) as [Hnum Habsent].
  split; [|split; [|split]].
  - intros ws sg ds rest -> Hws Hne Hall Hrest.
    assert (Hval : rateLimitResetAt r
                   = Some (Js.numberOf (Js.signFactor sg * Js.decimalValue ds))).
    { apply Hnum; [|apply numberOf_not_NaN].
      rewrite parseInt10_white by assumption. now apply parseInt10_prefix. }
    split; [exact Hval|].
    intros Hb. rewrite Hval, numberOf_exact; [reflexivity|].
    now apply signed_value_bound.
  - exact Habsent.
  - intros ->. unfold rateLimitResetAt. rewrite Hh. reflexivity.
  - intros ->. unfold rateLimitResetAt. rewrite Hh. reflexivity.
Qed.

(** ** Effects of the classifier *)

Lemma timersArmed_app (es1 es2 : list Event) :
  timersArmed (es1 ++ es2) = (timersArmed es1 ++ timersArmed es2)%list.
Proof.
  induction es1 as [|e es1 IH]; [reflexivity|].
  destruct e; cbn; rewrite IH; reflexivity.
Qed.

Ltac run_classifier :=
  unfold handleRequestError, showFailureWhenDebugging, trackRequestException,
    subscriptionTrackRequestException, loggerError, bind, get, emit, ret, throw,
    updateProviderCount, updateSubscriptionCount;
  repeat match goal with
         | |- context [if ?b then _ else _] => destruct b
         | |- context [match response ?r with _ => _ end] => destruct (response r)
         end;
  cbn.

(** The classifier arms no timer. *)
Lemma handleRequestError_no_timer (provider : Retriever) (ex : Exception)
    (scope : option LogScope) (w : World) :
  timersArmed (effects (snd (handleRequestError provider ex scope w)))
  = timersArmed (effects w).
Proof.
  destruct ex as [r | msg | original]; [|reflexivity|reflexivity].
  run_classifier;
    rewrite ?timersArmed_app; cbn; rewrite ?app_nil_r; reflexivity.
Qed.

(** What the classifier does with a status 500 that carries a response. *)
Lemma handleRequestError_500 (provider : Retriever) (r : RequestError)
    (resp : ErrorResponse) (scope : option LogScope) (w : World) :
  status r = 500 ->
  response r = Some resp ->
  handleRequestError provider (HttpError r) scope w
  = (Normal tt,
     {| isDebugging := isDebugging w;
        logScope := logScope w;
        providerExceptionCount := providerExceptionCount w;
        subscriptionExceptionCount := S (subscriptionExceptionCount w);
        effects :=
          effects w
          ++ [LoggerError (HttpError r) scope;
              SubscriptionTrackRequestException;
              ShowIntegrationRequestFailed500WarningMessage
                (failedToRespondText provider)] |}).
Proof.
  intros Hs Hr. classify Hs. rewrite Hr.
  unfold subscriptionTrackRequestException, loggerError, bind, emit,
    updateSubscriptionCount.
  cbn. rewrite <- !app_assoc. reflexivity.
Qed.

(** ** The request executor *)

(** C3: when the cancellation token is already signalled on entry,
    [fetch] raises a CancellationError without a cause and leaves the
    world as it was, however the transport would have settled: no
    transport call, no timer, no call on the provider. *)
Theorem already_cancelled_fails_first (provider : Retriever) (url : RequestInfo)
    (init : option (RequestInit InitRest)) (o : FetchOptions)
    (c : CancellationToken) (settles : Settlement) (w : World) :
  cancellation o = Some c ->
  isCancellationRequested c = true ->
  fetch provider url init (Some o) settles w
  = (Throw (Plain (CancellationError None)), w).
Proof.
  intros Hc Hreq. unfold fetch, bind, get, cancellationRequested.
  rewrite Hc, Hreq. reflexivity.
Qed.

(** C7: when the call is not cancelled on entry and the transport
    resolves, [fetch] returns the very response of the transport and
    the exception count of the provider is zero afterwards, whatever it
    was before; the call of resetRequestExceptionCount is the last
    effect. *)
Theorem success_resets_and_returns (provider : Retriever) (url : RequestInfo)
    (init : option (RequestInit InitRest)) (options : option FetchOptions)
    (result : Response) (w : World) :
  cancellationRequested options = false ->
  exists w',
    fetch provider url init options (Resolves result) w = (Normal result, w')
    /\ providerExceptionCount w' !! id provider = Some 0%nat
    /\ last (effects w') = Some (ProviderResetRequestExceptionCount provider).
Proof.
  intros Hc. unfold fetch, bind, get. rewrite Hc.
  destruct (hasCancellation options), (effectiveTimeout options) as [ms|];
    cbn; (eexists; split; [reflexivity|]); cbn;
    (split; [apply lookup_insert_eq | apply last_snoc]).
Qed.

(** C4, with the entry check: with a cancellation token the timeout is
    the one of the options (none if none is given); without a token and
    without a given timeout it is 60000 ms; a call that is not cancelled
    on entry arms exactly one timer, with that delay, when there is a
    timeout, and no timer when there is none; a call that is cancelled on
    entry arms no timer at all. *)
Theorem timeout_policy (options : option FetchOptions) :
  (hasCancellation options = true ->
     effectiveTimeout options = givenTimeout options)
  /\ (hasCancellation options = false -> givenTimeout options = None ->
     effectiveTimeout options = Some 60000)
  /\ (cancellationRequested options = false ->
      forall (provider : Retriever) (url : RequestInfo)
        (init : option (RequestInit InitRest)) (settles : Settlement) (w : World),
        timersArmed (effects (snd (fetch provider url init options settles w)))
        = (timersArmed (effects w)
           ++ match effectiveTimeout options with
              | Some ms => [ms]
              | None => []
              end)%list)
  /\ (cancellationRequested options = true ->
      forall (provider : Retriever) (url : RequestInfo)
        (init : option (RequestInit InitRest)) (settles : Settlement) (w : World),
        timersArmed (effects (snd (fetch provider url init options settles w)))
        = timersArmed (effects w)).
Proof.
  repeat split.
  - destruct options as [o|]; [|discriminate]. cbn.
    destruct (cancellation o); [reflexivity | discriminate].
  - destruct options as [o|]; [|reflexivity]. cbn.
    destruct (cancellation o); [discriminate|]. now intros _ ->.
  - intros Hc provider url init settles w.
    unfold fetch. unfold bind at 1. unfold get at 1. rewrite Hc.
    destruct settles as [result | ex].
    + destruct (hasCancellation options), (effectiveTimeout options) as [ms|];
        cbn; rewrite ?timersArmed_app; cbn; rewrite ?app_nil_r; reflexivity.
    + unfold bind.
      destruct (hasCancellation options), (effectiveTimeout options) as [ms|];
        cbn;
        match goal with
        | |- context [handleRequestError ?p ?e ?sc ?w1] =>
            pose proof (handleRequestError_no_timer p e sc w1) as Hno;
            destruct (handleRequestError p e sc w1) as [[[]|thrown] w2]
        end;
        cbn in *; rewrite Hno, ?timersArmed_app; cbn;
        rewrite ?app_nil_r; reflexivity.
  - intros Hc provider url init settles w.
    unfold fetch, bind, get. rewrite Hc. reflexivity.
Qed.

(** C1, with the sink the code calls: for a request error with status
    500 that carries a response, the classifier logs the error, calls
    trackRequestException of container.subscription exactly once and
    that of the provider not at all, shows the failed-to-respond
    warning, and returns normally; [fetch], when the transport rejects
    with that error, raises the error itself. *)
Theorem server_error_tracked_and_absorbed (provider : Retriever) (r : RequestError)
    (resp : ErrorResponse) (scope : option LogScope) (w : World) :
  status r = 500 ->
  response r = Some resp ->
  (exists w' es,
      handleRequestError provider (HttpError r) scope w = (Normal tt, w')
      /\ effects w' = (effects w ++ es)%list
      /\ es = [LoggerError (HttpError r) scope;
               SubscriptionTrackRequestException;
               ShowIntegrationRequestFailed500WarningMessage
                 (failedToRespondText provider)]
      /\ subscriptionTrackCalls es = 1%nat
      /\ providerTrackCalls es = 0%nat
      /\ subscriptionExceptionCount w' = S (subscriptionExceptionCount w)
      /\ providerExceptionCount w' = providerExceptionCount w)
  /\ (forall (url : RequestInfo) (init : option (RequestInit InitRest))
        (options : option FetchOptions),
        cancellationRequested options = false ->
        fst (fetch (Response := Response) provider url init options
               (Rejects (HttpError r)) w)
        = Throw (Plain (HttpError r))).
Proof.
  intros Hs Hr. split.
  - do 2 eexists. split; [exact (handleRequestError_500 provider r resp scope w Hs Hr)|].
    cbn. repeat split.
  - intros url init options Hc.
    unfold fetch. unfold bind at 1. unfold get at 1. rewrite Hc.
    unfold bind.
    destruct (hasCancellation options), (effectiveTimeout options) as [ms|];
      cbn -[handleRequestError];
      rewrite (handleRequestError_500 provider r resp _ _ Hs Hr);
      reflexivity.
Qed.

End Properties.

(** * The properties at the sample inputs *)

Section AtSamples.

Import Sample.

(** [parseInt] on a few header values. *)
Example parseInt10_samples :
  Js.parseInt10 "1700000000" = Js.Num 1700000000
  /\ Js.parseInt10 "not-a-number" = Js.NaN
  /\ Js.parseInt10 "1700000000.5" = Js.Num 1700000000
  /\ Js.parseInt10 "123abc" = Js.Num 123
  /\ Js.parseInt10 "  -42 s" = Js.Num (-42)
  /\ Js.parseInt10 "+7" = Js.Num 7
  /\ Js.parseInt10 "" = Js.NaN
  /\ Js.parseInt10 "-" = Js.NaN
  /\ Js.parseInt10 ".5" = Js.NaN.
Proof. repeat split. Qed.

Example includes_samples :
  Js.includes "API rate limit exceeded for user" "rate limit" = true
  /\ Js.includes "Rate Limit exceeded" "rate limit" = false
  /\ Js.includes "Resource not accessible by integration" "rate limit" = false
  /\ Js.includes "" "" = true.
Proof. repeat split. Qed.

(** The decision table at one input per row. *)
Example handleRequestError_samples :
  let run code text resp w :=
    handleRequestError github (HttpError (httpError code text resp)) None w in
  fst (run 404 "Not Found" None world0)
  = Throw (ProviderRequestNotFoundError (HttpError (httpError 404 "Not Found" None)))
  /\ fst (run 418 "I'm a teapot" None world0)
     = Throw (ProviderRequestClientError (HttpError (httpError 418 "I'm a teapot" None)))
  /\ run 500 "Internal Server Error" None world0
     = (Normal tt,
        {| isDebugging := false;
           logScope := logScope world0;
           providerExceptionCount := providerExceptionCount world0;
           subscriptionExceptionCount := 0;
           effects :=
             [LoggerError (HttpError (httpError 500 "Internal Server Error" None))
                None] |})
  /\ effects (snd (run 502 "upstream timeout" None world0))
     = [LoggerError (HttpError (httpError 502 "upstream timeout" None)) None;
        ProviderTrackRequestException github;
        ShowIntegrationRequestTimedOutWarningMessage "GitHub"]
  /\ providerExceptionCount (snd (run 502 "upstream timeout" None world0)) !! "github"
     = Some 4%nat
  /\ effects (snd (run 503 "Service Unavailable" None world0))
     = [LoggerError (HttpError (httpError 503 "Service Unavailable" None)) None;
        SubscriptionTrackRequestException;
        ShowIntegrationRequestFailed500WarningMessage
          "GitHub failed to respond and might be experiencing issues.Please visit the [GitHub status page](https://www.githubstatus.com) for more information."]
  /\ run 302 "Found" None world0 = (Normal tt, world0).
Proof. repeat split. Qed.

(** A successful call with a live token and no timeout: the listener is
    registered, no timer is armed, the transport is called with the
    user agent of the options, and the count of the provider is reset. *)
Example fetch_sample :
  fetch github url (None : option (RequestInit unit)) (Some tokenOptions)
    (Resolves "{}") world0
  = (Normal "{}",
     {| isDebugging := false;
        logScope := logScope world0;
        providerExceptionCount := <["github" := 0%nat]> (providerExceptionCount world0);
        subscriptionExceptionCount := 0;
        effects :=
          [OnCancellationRequested;
           TransportFetch {| requestUrl := url;
                             requestInit := None;
                             requestHeaders := {[ "User-Agent" := "GitLens/14.0" ]} |};
           ClearTimeout None;
           ProviderResetRequestExceptionCount github] |}).
Proof. reflexivity. Qed.

Lemma not_found_statuses_witness :
  (status (httpError 410 "Gone" None) = 404
   \/ status (httpError 410 "Gone" None) = 410
   \/ status (httpError 410 "Gone" None) = 422)
  /\ handleRequestError github (HttpError (httpError 410 "Gone" None)) None world0
     = (Throw (ProviderRequestNotFoundError (HttpError (httpError 410 "Gone" None))),
        world0).
Proof.
  split; [right; left; reflexivity|].
  apply not_found_statuses. right; left; reflexivity.
Defined.

Lemma unauthorized_carries_provider_id_witness :
  status (httpError 401 "Bad credentials" None) = 401
  /\ handleRequestError github (HttpError (httpError 401 "Bad credentials" None))
       None world0
     = (Throw (AuthenticationError "github" Unauthorized
                 (HttpError (httpError 401 "Bad credentials" None))),
        world0).
Proof.
  split; [reflexivity|].
  apply (unauthorized_carries_provider_id github). reflexivity.
Defined.

Lemma forbidden_carries_fixed_identity_witness :
  status (httpError 403 "Resource not accessible" None) = 403
  /\ Js.includes (message (httpError 403 "Resource not accessible" None)) "rate limit"
     = false
  /\ handleRequestError github (HttpError (httpError 403 "Resource not accessible" None))
       None world0
     = (Throw (AuthenticationError "gitkraken" Forbidden
                 (HttpError (httpError 403 "Resource not accessible" None))),
        world0).
Proof.
  split; [reflexivity|]. split; [reflexivity|].
  apply forbidden_carries_fixed_identity; reflexivity.
Defined.


Lemma rate_limit_reset_numeric_prefix_witness :
  status (rateLimited "123abc") = 403
  /\ Js.includes (message (rateLimited "123abc")) "rate limit" = true
  /\ rateLimitResetHeader (rateLimited "123abc") = Some "123abc"
  /\ exists resetAt,
       handleRequestError github (HttpError (rateLimited "123abc")) None world0
       = (Throw (ProviderRequestRateLimitError (HttpError (rateLimited "123abc"))
                   (Some "ghp_token") resetAt),
          world0)
       /\ resetAt = Some (Js.Num 123).
Proof.
  split; [reflexivity|]. split; [reflexivity|]. split; [reflexivity|].
  destruct (rate_limit_reset_numeric_prefix github (rateLimited "123abc") None world0
              "123abc" eq_refl eq_refl eq_refl) as (resetAt & Hrun & Hprefix & _).
  exists resetAt. split; [exact Hrun|].
  destruct (Hprefix "" Js.NoSign "123" "abc") as [_ Hexact];
    [reflexivity | reflexivity | discriminate | reflexivity | reflexivity |].
  apply Hexact. vm_compute. discriminate.
Defined.

(** C10 as stated fails beyond the exact Numbers: for the header
    '9007199254740993abc' the leading integer is 2^53 + 1, and resetAt is
    9007199254740992. *)
Lemma long_prefix_is_rounded :
  Js.decimalValue "9007199254740993" = 9007199254740993
  /\ handleRequestError github (HttpError (rateLimited "9007199254740993abc"))
       None world0
     = (Throw (ProviderRequestRateLimitError
                 (HttpError (rateLimited "9007199254740993abc"))
                 (Some "ghp_token") (Some (Js.Num 9007199254740992))),
        world0).
Proof. split; vm_compute; reflexivity. Qed.

(** Number values beyond 2^53: a tie goes to the even significand, and
    from 2^1024 - 2^970 on the value is an infinity. *)
Example numberOf_samples :
  Js.numberOf 9007199254740992 = Js.Num 9007199254740992
  /\ Js.numberOf 9007199254740993 = Js.Num 9007199254740992
  /\ Js.numberOf 9007199254740995 = Js.Num 9007199254740996
  /\ Js.numberOf (-9007199254740993) = Js.Num (-9007199254740992)
  /\ Js.numberOf (10 ^ 23) = Js.Num 99999999999999991611392
  /\ Js.numberOf (10 ^ 400) = Js.PosInfinity
  /\ Js.numberOf (- 10 ^ 400) = Js.NegInfinity
  /\ Js.numberOf (2 ^ 1024 - 2 ^ 970 - 1) = Js.Num ((2 ^ 53 - 1) * 2 ^ 971)
  /\ Js.numberOf (2 ^ 1024 - 2 ^ 970) = Js.PosInfinity.
Proof. repeat split; vm_compute; reflexivity. Qed.

Lemma already_cancelled_fails_first_witness :
  cancellation cancelledOptions = Some {| isCancellationRequested := true |}
  /\ isCancellationRequested {| isCancellationRequested := true |} = true
  /\ fetch github url (None : option (RequestInit unit)) (Some cancelledOptions)
       (Resolves "{}") world0
     = (Throw (Plain (CancellationError None)), world0).
Proof.
  split; [reflexivity|]. split; [reflexivity|].
  apply (already_cancelled_fails_first github url None cancelledOptions
           {| isCancellationRequested := true |}); reflexivity.
Defined.

Lemma success_resets_and_returns_witness :
  cancellationRequested (Some tokenOptions) = false
  /\ exists w',
       fetch github url (None : option (RequestInit unit)) (Some tokenOptions)
         (Resolves "{}") world0
       = (Normal "{}", w')
       /\ providerExceptionCount w' !! "github" = Some 0%nat.
Proof.
  split; [reflexivity|].
  destruct (success_resets_and_returns github url (None : option (RequestInit unit))
              (Some tokenOptions) "{}" world0 eq_refl) as (w' & Hrun & Hcount & _).
  exists w'. split; [exact Hrun | exact Hcount].
Defined.

Lemma timeout_policy_witness :
  hasCancellation (Some tokenOptions) = true
  /\ effectiveTimeout (Some tokenOptions) = None
  /\ hasCancellation None = false
  /\ givenTimeout None = None
  /\ effectiveTimeout None = Some 60000
  /\ cancellationRequested None = false
  /\ timersArmed
       (effects (snd (fetch github url (None : option (RequestInit unit)) None
                        (Resolves "{}") world0)))
     = [60000]
  /\ cancellationRequested (Some cancelledOptions) = true
  /\ timersArmed
       (effects (snd (fetch github url (None : option (RequestInit unit))
                        (Some cancelledOptions) (Resolves "{}") world0)))
     = [].
Proof.
  split; [reflexivity|].
  split; [exact (proj1 (timeout_policy (Response := string) (RequestInfo := string)
                          (InitRest := unit) (LogScope := string)
                          (Some tokenOptions)) eq_refl)|].
  split; [reflexivity|]. split; [reflexivity|].
  split; [exact (proj1 (proj2 (timeout_policy (Response := string)
                                 (RequestInfo := string) (InitRest := unit)
                                 (LogScope := string) None)) eq_refl eq_refl)|].
  split; [reflexivity|].
  split; [exact (proj1 (proj2 (proj2 (timeout_policy None))) eq_refl github url None
                   (Resolves "{}") world0)|].
  split; [reflexivity|].
  exact (proj2 (proj2 (proj2 (timeout_policy (Some cancelledOptions)))) eq_refl
           github url None (Resolves "{}") world0).
Defined.

Lemma server_error_tracked_and_absorbed_witness :
  status serverError = 500
  /\ response serverError = Some noHeaders
  /\ (exists w',
        handleRequestError github (HttpError serverError) None world0 = (Normal tt, w')
        /\ subscriptionExceptionCount w' = 1%nat
        /\ providerExceptionCount w' !! "github" = Some 3%nat)
  /\ fst (fetch github url (None : option (RequestInit unit)) None
            (Rejects (Response := string) (HttpError serverError)) world0)
     = Throw (Plain (HttpError serverError)).
Proof.
  split; [reflexivity|]. split; [reflexivity|].
  destruct (server_error_tracked_and_absorbed (Response := string) github serverError
              noHeaders None world0 eq_refl eq_refl)
    as [(w' & es & Hrun & _ & _ & _ & _ & Hsub & Hprov) Hfetch].
  split.
  - exists w'. split; [exact Hrun|]. split; [exact Hsub|].
    rewrite Hprov. reflexivity.
  - apply Hfetch. reflexivity.
Defined.

(** C1 as stated fails: on a status 500 with a response the classifier
    calls trackRequestException of the provider zero times (not once);
    the one call goes to container.subscription, and the count of the
    provider stays what it was. *)
Lemma server_error_does_not_track_on_provider :
  providerTrackCalls
    (effects (snd (handleRequestError github (HttpError serverError) None world0)))
  = 0%nat
  /\ subscriptionTrackCalls
       (effects (snd (handleRequestError github (HttpError serverError) None world0)))
     = 1%nat
  /\ providerExceptionCount
       (snd (handleRequestError github (HttpError serverError) None world0))
     !! "github" = Some 3%nat.
Proof. repeat split. Qed.

(** C4 as stated fails: with a token that is already signalled and a
    timeout of 10 ms, the timeout of the options is present but the call
    arms no timer. *)
Lemma cancelled_on_entry_arms_no_timer :
  hasCancellation (Some cancelledOptions) = true
  /\ effectiveTimeout (Some cancelledOptions) = Some 10
  /\ timersArmed
       (effects (snd (fetch github url (None : option (RequestInit unit))
                        (Some cancelledOptions) (Resolves "{}") world0)))
     = [].
Proof. repeat split. Qed.

End AtSamples.

(** * Further properties of the service *)

Section ServiceProperties.

Context {Response RequestInfo InitRest LogScope : Type}.

Local Abbreviation World := (World RequestInfo InitRest LogScope).
Local Abbreviation Event := (Event RequestInfo InitRest LogScope).
Local Abbreviation Settlement := (Settlement Response).

Ltac bool_facts :=
  repeat match goal with
         | H : orb _ _ = true |- _ => apply orb_true_iff in H; destruct H
         | H : orb _ _ = false |- _ => apply orb_false_iff in H; destruct H
         | H : andb _ _ = true |- _ => apply andb_true_iff in H; destruct H
         | H : andb _ _ = false |- _ => apply andb_false_iff in H; destruct H
         | H : Z.eqb _ _ = true |- _ => apply Z.eqb_eq in H
         | H : Z.eqb _ _ = false |- _ => apply Z.eqb_neq in H
         | H : Z.leb _ _ = true |- _ => apply Z.leb_le in H
         | H : Z.leb _ _ = false |- _ => apply Z.leb_gt in H
         | H : Z.ltb _ _ = true |- _ => apply Z.ltb_lt in H
         | H : Z.ltb _ _ = false |- _ => apply Z.ltb_ge in H
         end.

(** Runs the classifier on a request error along every path of its
    switch, keeping what each test found. *)
Ltac classifier_paths :=
  unfold handleRequestError, showFailureWhenDebugging, trackRequestException,
    subscriptionTrackRequestException, loggerError, bind, get, emit, ret, throw,
    updateProviderCount, updateSubscriptionCount;
  repeat (cbn [fst snd effects isDebugging logScope providerExceptionCount
                 subscriptionExceptionCount];
          match goal with
          | |- context [if ?b then _ else _] => destruct b eqn:?
          | |- context [match response ?r with _ => _ end] =>
              destruct (response r) eqn:?
          end);
  cbn [fst snd effects isDebugging logScope providerExceptionCount
         subscriptionExceptionCount];
  bool_facts.

(** X1: the classifier returns normally exactly on request errors whose
    status is outside 400..499; every 4xx status, every AbortError and
    every CancellationError makes it raise. *)
Theorem classifier_returns_iff_not_client_error (provider : Retriever)
    (ex : Exception) (scope : option LogScope) (w : World) :
  fst (handleRequestError provider ex scope w) = Normal tt
  <-> exists r, ex = HttpError r /\ ~ (400 <= status r < 500).
Proof.
  destruct ex as [r | msg | original].
  - classifier_paths;
      (split;
       [ intros Hrun;
         first [discriminate Hrun | exists r; split; [reflexivity | lia]]
       | intros (r' & [= <-] & Hout); first [reflexivity | lia] ]).
  - split; [discriminate | intros (r & [=] & _)].
  - split; [discriminate | intros (r & [=] & _)].
Qed.

(** X2: whenever the classifier raises, it has done nothing else: the
    world is exactly as it was (no log entry, no tracking, no warning). *)
Theorem classifier_raise_leaves_world (provider : Retriever) (ex : Exception)
    (scope : option LogScope) (w : World) (t : Thrown) :
  fst (handleRequestError provider ex scope w) = Throw t ->
  snd (handleRequestError provider ex scope w) = w.
Proof.
  destruct ex as [r | msg | original]; [|reflexivity..].
  classifier_paths; intros Hrun; first [reflexivity | discriminate Hrun].
Qed.

(** X3: whatever the classifier raises is the exception itself or an
    error that wraps it as its original. *)
Theorem classifier_raise_keeps_cause (provider : Retriever) (ex : Exception)
    (scope : option LogScope) (w : World) (t : Thrown) :
  fst (handleRequestError provider ex scope w) = Throw t ->
  t = Plain ex \/ originalOf t = Some ex.
Proof.
  destruct ex as [r | msg | original].
  - classifier_paths; intros Hrun; try discriminate Hrun;
      injection Hrun as <-; right; reflexivity.
  - intros [= <-]. right; reflexivity.
  - intros [= <-]. left; reflexivity.
Qed.

(** X4: a status in 400..499 other than 401, 403, 404, 410 and 422 is
    raised as ProviderRequestClientError around the original exception. *)
Theorem other_client_errors (provider : Retriever) (r : RequestError)
    (scope : option LogScope) (w : World) :
  400 <= status r < 500 ->
  status r <> 401 -> status r <> 403 ->
  status r <> 404 -> status r <> 410 -> status r <> 422 ->
  handleRequestError provider (HttpError r) scope w
  = (Throw (ProviderRequestClientError (HttpError r)), w).
Proof.
  intros Hrange H401 H403 H404 H410 H422.
  classifier_paths; first [reflexivity | exfalso; lia].
Qed.

Ltac give_effects :=
  cbn; rewrite <- ?app_assoc;
  first [ exact (eq_sym (app_nil_r _)) | reflexivity ].

(** X5: the classifier calls Logger.error, once and with the exception
    and the scope it was given, exactly for the statuses 500, 502 and
    503; for every other status it logs nothing. *)
Theorem logged_exactly_for_server_errors (provider : Retriever) (r : RequestError)
    (scope : option LogScope) (w : World) :
  exists es,
    effects (snd (handleRequestError provider (HttpError r) scope w))
    = (effects w ++ es)%list
    /\ (status r = 500 \/ status r = 502 \/ status r = 503 ->
        errorsLogged es = [(HttpError r, scope)])
    /\ (status r <> 500 -> status r <> 502 -> status r <> 503 ->
        errorsLogged es = []).
Proof.
  classifier_paths;
    (eexists; split; [give_effects|]);
    (split; intros; first [reflexivity | exfalso; lia]).
Qed.

(** X6: the generic error message is shown exactly when the logger is
    in debugging mode and the status is 502 or lies outside 400..499
    without being 500 or 503; its text names the provider and the first
    structured error of the response, or else the message of the
    exception. *)
Theorem debug_message_shown_iff (provider : Retriever) (r : RequestError)
    (scope : option LogScope) (w : World) :
  exists es,
    effects (snd (handleRequestError provider (HttpError r) scope w))
    = (effects w ++ es)%list
    /\ (isDebugging w = true ->
        ~ (400 <= status r < 500) -> status r <> 500 -> status r <> 503 ->
        errorMessagesShown es
        = [name provider +:+ " request failed: " +:+ failureDetail r])
    /\ (isDebugging w = false \/ 400 <= status r < 500
        \/ status r = 500 \/ status r = 503 ->
        errorMessagesShown es = []).
Proof.
  classifier_paths;
    (eexists; split; [give_effects|]);
    (split;
     [ intros Hd; intros; first [reflexivity | discriminate Hd | exfalso; lia]
     | intros [Hd | Hs]; first [reflexivity | discriminate Hd | exfalso; lia] ]).
Qed.

(** X7: on status 502 the classifier logs and returns normally; it calls
    trackRequestException of the provider, once, and shows the timed-out
    warning with the provider's name exactly when the message contains
    'timeout'; it never calls the tracking of container.subscription; the
    generic message follows when debugging. *)
Theorem bad_gateway_tracks_provider_on_timeout (provider : Retriever)
    (r : RequestError) (scope : option LogScope) (w : World) :
  status r = 502 ->
  fst (handleRequestError provider (HttpError r) scope w) = Normal tt
  /\ effects (snd (handleRequestError provider (HttpError r) scope w))
     = (effects w
        ++ [LoggerError (HttpError r) scope]
        ++ (if Js.includes (message r) "timeout"
            then [ProviderTrackRequestException provider;
                  ShowIntegrationRequestTimedOutWarningMessage (name provider)]
            else [])
        ++ (if isDebugging w
            then [ShowErrorMessage
                    (name provider +:+ " request failed: " +:+ failureDetail r)]
            else []))%list.
Proof.
  intros Hs.
  classifier_paths; try (exfalso; lia);
    (split; [reflexivity|]); cbn; rewrite <- ?app_assoc; reflexivity.
Qed.

(** X8: on status 503 the classifier logs, calls trackRequestException of
    container.subscription once and shows the failed-to-respond warning,
    whether or not the exception carries a response, and returns before
    the generic message, also when debugging; the tracking of the
    provider is not called. *)
Theorem service_unavailable_tracks_always (provider : Retriever)
    (r : RequestError) (scope : option LogScope) (w : World) :
  status r = 503 ->
  fst (handleRequestError provider (HttpError r) scope w) = Normal tt
  /\ effects (snd (handleRequestError provider (HttpError r) scope w))
     = (effects w
        ++ [LoggerError (HttpError r) scope;
            SubscriptionTrackRequestException;
            ShowIntegrationRequestFailed500WarningMessage
              (failedToRespondText provider)])%list.
Proof.
  intros Hs.
  classifier_paths; try (exfalso; lia).
  split; [reflexivity|]. now rewrite <- !app_assoc.
Qed.

(** X9: on status 500 without a response the classifier only logs: no
    tracking on either sink, no warning, no generic message, and it
    returns normally. *)
Theorem server_error_without_response_only_logs (provider : Retriever)
    (r : RequestError) (scope : option LogScope) (w : World) :
  status r = 500 ->
  response r = None ->
  handleRequestError provider (HttpError r) scope w
  = (Normal tt, appendEffects [LoggerError (HttpError r) scope] w).
Proof.
  intros Hs Hr.
  classifier_paths; try (exfalso; lia); try discriminate.
  reflexivity.
Qed.

(** The new effects of a run of the classifier are its own. *)
Lemma handleRequestError_effects (provider : Retriever) (ex : Exception)
    (scope : option LogScope) (w : World) :
  exists es,
    effects (snd (handleRequestError provider ex scope w)) = (effects w ++ es)%list
    /\ forallb isClassifierEffect es = true.
Proof.
  destruct ex as [r | msg | original];
    [| exists []; split; [cbn; now rewrite app_nil_r | reflexivity]..].
  classifier_paths; (eexists; split; [give_effects | reflexivity]).
Qed.

(** X10: a run of the classifier only appends effects, all of them its
    own (log entries, tracking calls, warnings, messages; never a timer,
    a transport call, a listener or a reset); it tracks at most once, on
    one of the two sinks; and it leaves the debugging flag and the log
    scope as they are. *)
Theorem classifier_effects_are_its_own (provider : Retriever) (ex : Exception)
    (scope : option LogScope) (w : World) :
  exists es,
    effects (snd (handleRequestError provider ex scope w)) = (effects w ++ es)%list
    /\ forallb isClassifierEffect es = true
    /\ (providerTrackCalls es + subscriptionTrackCalls es <= 1)%nat
    /\ isDebugging (snd (handleRequestError provider ex scope w)) = isDebugging w
    /\ logScope (snd (handleRequestError provider ex scope w)) = logScope w.
Proof.
  destruct ex as [r | msg | original];
    [| exists []; cbn; rewrite app_nil_r; repeat split; lia..].
  classifier_paths;
    (eexists; split; [give_effects|]); cbn; repeat split;
    first [lia | congruence].
Qed.

(** ** The executor around the classifier *)

Lemma bind_emit {A : Type} (e : Event) (k : unit -> M A) (w : World) :
  bind (emit e) k w = k tt (appendEffects [e] w).
Proof. reflexivity. Qed.

Lemma bind_ret {A B : Type} (a : A) (k : A -> M (RequestInfo := RequestInfo)
    (InitRest := InitRest) (LogScope := LogScope) B) (w : World) :
  bind (ret a) k w = k a w.
Proof. reflexivity. Qed.

Lemma appendEffects_app (es1 es2 : list Event) (w : World) :
  appendEffects es2 (appendEffects es1 w) = appendEffects (es1 ++ es2) w.
Proof. unfold appendEffects. cbn. now rewrite app_assoc. Qed.

(** A call that is not cancelled on entry performs the set-up effects and
    then goes on according to the settlement. *)
Lemma fetch_running (provider : Retriever) (url : RequestInfo)
    (init : option (RequestInit InitRest)) (options : option FetchOptions)
    (settles : Settlement) (w : World) :
  cancellationRequested options = false ->
  fetch provider url init options settles w
  = match settles with
    | Resolves result =>
        bind (resetRequestExceptionCount provider) (fun _ => ret result)
    | Rejects ex =>
        bind (handleRequestError provider ex (logScope w))
          (fun _ => throw (Plain ex))
    end (appendEffects (setupEffects url init options) w).
Proof.
  intros Hc. unfold fetch. unfold bind at 1, get at 1. rewrite Hc.
  cbv beta iota zeta. unfold setupEffects.
  destruct (hasCancellation options), (effectiveTimeout options) as [ms|];
    repeat first [rewrite bind_emit | rewrite bind_ret | progress cbv beta];
    rewrite ?appendEffects_app; reflexivity.
Qed.

(** X11: when the transport rejects, [fetch] never returns normally: it
    raises the rejection itself or an error that wraps it as its
    original; a request error whose status is outside 400..499 is always
    re-raised as it is. *)
Theorem fetch_rejection_always_raises (provider : Retriever) (url : RequestInfo)
    (init : option (RequestInit InitRest)) (options : option FetchOptions)
    (ex : Exception) (w : World) :
  cancellationRequested options = false ->
  exists t,
    fst (fetch (Response := Response) provider url init options (Rejects ex) w)
    = Throw t
    /\ (t = Plain ex \/ originalOf t = Some ex)
    /\ (forall r, ex = HttpError r -> ~ (400 <= status r < 500) -> t = Plain ex).
Proof.
  intros Hc. rewrite fetch_running by assumption.
  destruct ex as [r | msg | original].
  - unfold bind at 1.
    classifier_paths;
      (eexists; split; [reflexivity|]);
      (split;
       [ first [left; reflexivity | right; reflexivity]
       | intros r' [= <-] Hout; first [reflexivity | exfalso; lia] ]).
  - eexists. split; [reflexivity|]. split; [right; reflexivity | discriminate].
  - eexists. split; [reflexivity|]. split; [left; reflexivity | discriminate].
Qed.

Lemma classifier_effects_quiet (es : list Event) :
  forallb isClassifierEffect es = true ->
  transportRequests es = [] /\ timersCleared es = [] /\ timersArmed es = [].
Proof.
  induction es as [|e es IH]; [now repeat split|].
  cbn [forallb]. intros [He Hes]%andb_true_iff.
  destruct (IH Hes) as (Ht & Hc & Ha).
  unfold transportRequests, timersCleared in *.
  destruct e; try discriminate He; cbn; now rewrite ?Ht, ?Hc, ?Ha.
Qed.

(** X12: a call that is not cancelled on entry performs, in this order,
    the registration of the cancellation listener (if there is a token),
    the arming of the timer (if there is a timeout), one transport call
    and the clearing of that timer; what follows is the one call of
    resetRequestExceptionCount on success, and only effects of the
    classifier on rejection.  So the transport is called exactly once and
    the timer is cleared exactly once, however the promise settles. *)
Theorem fetch_effects_in_order (provider : Retriever) (url : RequestInfo)
    (init : option (RequestInit InitRest)) (options : option FetchOptions)
    (settles : Settlement) (w : World) :
  cancellationRequested options = false ->
  exists rest,
    effects (snd (fetch provider url init options settles w))
    = (effects w ++ setupEffects url init options ++ rest)%list
    /\ match settles with
       | Resolves _ => rest = [ProviderResetRequestExceptionCount provider]
       | Rejects _ => forallb isClassifierEffect rest = true
       end
    /\ transportRequests (setupEffects url init options ++ rest)
       = [{| requestUrl := url;
             requestInit := init;
             requestHeaders := mergedHeaders init options |}]
    /\ timersCleared (setupEffects url init options ++ rest)
       = [effectiveTimeout options].
Proof.
  intros Hc. rewrite fetch_running by assumption.
  assert (Hsetup :
    transportRequests (setupEffects (LogScope := LogScope) url init options)
    = [{| requestUrl := url; requestInit := init;
          requestHeaders := mergedHeaders init options |}]
    /\ timersCleared (setupEffects (LogScope := LogScope) url init options)
       = [effectiveTimeout options]).
  { unfold setupEffects.
    destruct (hasCancellation options), (effectiveTimeout options); now split. }
  destruct Hsetup as [Htr Hcl].
  unfold transportRequests, timersCleared in *.
  destruct settles as [result | ex].
  - exists [ProviderResetRequestExceptionCount provider].
    split; [cbn; now rewrite <- app_assoc|]. split; [reflexivity|].
    rewrite !omap_app, Htr, Hcl. now split.
  - unfold bind.
    destruct (handleRequestError_effects provider ex (logScope w)
                (appendEffects (setupEffects url init options) w))
      as (rest & Heff & Hown).
    destruct (classifier_effects_quiet rest Hown) as (Hqt & Hqc & _).
    unfold transportRequests, timersCleared in *.
    exists rest.
    destruct (handleRequestError provider ex (logScope w) _) as [[[]|t] w'];
      cbn in Heff |- *; rewrite Heff, <- app_assoc;
      (split; [reflexivity|]); (split; [assumption|]);
      rewrite !omap_app, Htr, Hcl, Hqt, Hqc; now split.
Qed.

Lemma mergedHeaders_union (init : option (RequestInit InitRest))
    (options : option FetchOptions) :
  mergedHeaders init options
  = initHeadersOf init ∪ {[ "User-Agent" := Js.or_else (givenUserAgent options) "" ]}.
Proof.
  unfold mergedHeaders, initHeadersOf, givenUserAgent.
  destruct init as [i|]; [destruct (initHeaders i) as [hs|]|]; cbn;
    now rewrite ?(left_id_L ∅ (∪)).
Qed.

(** X13: the headers handed to the transport: every header of the
    caller's init is passed on with its value, also a User-Agent of the
    caller's own; when init has no User-Agent, the header is the user
    agent of the options, and the empty text when that is absent or
    empty; no other header is added. *)
Theorem caller_headers_win (init : option (RequestInit InitRest))
    (options : option FetchOptions) :
  (forall k v, initHeadersOf init !! k = Some v ->
               mergedHeaders init options !! k = Some v)
  /\ (initHeadersOf init !! "User-Agent" = None ->
      mergedHeaders init options !! "User-Agent"
      = Some (Js.or_else (givenUserAgent options) "")
      /\ (givenUserAgent options = None \/ givenUserAgent options = Some "" ->
          mergedHeaders init options !! "User-Agent" = Some ""))
  /\ (forall k, k <> "User-Agent" ->
                mergedHeaders init options !! k = initHeadersOf init !! k).
Proof.
  rewrite mergedHeaders_union. repeat split.
  - intros k v Hk. now apply lookup_union_Some_l.
  - rewrite lookup_union_r by assumption. apply lookup_singleton_eq.
  - intros Hua. rewrite lookup_union_r by assumption.
    rewrite lookup_singleton_eq. now destruct Hua as [-> | ->].
  - intros k Hk. apply lookup_union_l. now apply lookup_singleton_ne.
Qed.

(** X14: the user agent of the service starts with the product name
    (with GitLens-Debug/ when debugging, whatever the prerelease flag),
    and a caller that passes it as the user agent of the options gets it
    sent as the User-Agent header when init has none of its own. *)
Theorem service_user_agent_is_sent (container : Container) (host : Host)
    (init : option (RequestInit InitRest)) (o : FetchOptions) :
  userAgent o = Some (userAgentOf container host) ->
  initHeadersOf init !! "User-Agent" = None ->
  mergedHeaders init (Some o) !! "User-Agent" = Some (userAgentOf container host)
  /\ (exists rest, userAgentOf container host = "GitLens" +:+ rest)
  /\ (debugging container = true ->
      exists rest, userAgentOf container host = "GitLens-Debug/" +:+ rest).
Proof.
  intros Hua Hinit. split; [|split].
  - rewrite mergedHeaders_union, lookup_union_r by assumption.
    rewrite lookup_singleton_eq. cbn [givenUserAgent]. rewrite Hua.
    unfold userAgentOf.
    destruct (debugging container), (prerelease container); reflexivity.
  - unfold userAgentOf.
    destruct (debugging container), (prerelease container);
      eexists; reflexivity.
  - intros Hd. unfold userAgentOf. rewrite Hd. eexists. reflexivity.
Qed.

(** ** The rate-limit test *)

Lemma prefix_iff_append (n s : string) :
  String.prefix n s = true <-> exists post, s = n +:+ post.
Proof.
  revert s. induction n as [|a n IH]; intros s.
  - destruct s; (split; [intros _; eexists; reflexivity | reflexivity]).
  - destruct s as [|b s]; cbn [String.prefix].
    + split; [discriminate | intros (post & [=])].
    + destruct (ascii_dec a b) as [<- | Hab].
      * rewrite IH. split; intros (post & Hpost); exists post.
        -- now rewrite Hpost.
        -- now injection Hpost.
      * split; [discriminate | intros (post & [= Heq _]); congruence].
Qed.

Lemma includes_unfold (s n : string) :
  Js.includes s n
  = if String.prefix n s then true
    else match s with
         | EmptyString => false
         | String _ rest => Js.includes rest n
         end.
Proof. destruct s; reflexivity. Qed.

(** [includes] is containment as a contiguous run. *)
Lemma includes_iff_append (s n : string) :
  Js.includes s n = true <-> exists pre post, s = pre +:+ n +:+ post.
Proof.
  split.
  - induction s as [|c s IH]; rewrite includes_unfold;
      destruct (String.prefix n _) eqn:Hp.
    + apply prefix_iff_append in Hp as (post & ->). now exists "", post.
    + discriminate.
    + apply prefix_iff_append in Hp as (post & ->). now exists "", post.
    + intros (pre & post & ->)%IH. now exists (String c pre), post.
  - intros (pre & post & ->).
    induction pre as [|c pre IH]; rewrite includes_unfold.
    + replace (String.prefix n ("" +:+ n +:+ post)) with true; [reflexivity|].
      symmetry. apply prefix_iff_append. now exists post.
    + destruct (String.prefix n _); [reflexivity | exact IH].
Qed.

(** X15: a status 403 is raised as a rate-limit error exactly when the
    text 'rate limit', in lower case, occurs somewhere in the message of
    the exception; every other 403 is raised as the Forbidden
    authentication error. *)
Theorem forbidden_is_rate_limit_iff_phrase (provider : Retriever)
    (r : RequestError) (scope : option LogScope) (w : World) :
  status r = 403 ->
  ((exists pre post, message r = pre +:+ "rate limit" +:+ post) ->
   fst (handleRequestError provider (HttpError r) scope w)
   = Throw (ProviderRequestRateLimitError (HttpError r) (token provider)
              (rateLimitResetAt r)))
  /\ (~ (exists pre post, message r = pre +:+ "rate limit" +:+ post) ->
      fst (handleRequestError provider (HttpError r) scope w)
      = Throw (AuthenticationError "gitkraken" Forbidden (HttpError r))).
Proof.
  intros Hs.
  rewrite <- includes_iff_append.
  classifier_paths; try (exfalso; lia);
    (split; intros Hm; first [reflexivity | congruence]).
Qed.

End ServiceProperties.

(** * Properties of the copy command *)

Section CommandProperties.

Import CopyCurrentBranch.

Context {Uri GitUri TextEditor Repository Err : Type}.

Local Abbreviation Collaborators :=
  (Collaborators Uri GitUri TextEditor Repository Err).
Local Abbreviation Effect := (Effect Uri GitUri TextEditor Repository Err).

Ltac run_execute :=
  unfold execute, pickerUri, opening, bind, await, ret, call, tryCatch in *;
  repeat (cbn [fst snd] in *; case_match; simplify_eq);
  cbn [fst snd] in *.

(** X16: [execute] rejects exactly when [GitUri.fromUri] or the
    repository picker rejects, and then with that very error; whatever
    happens after the picker has resolved, it completes normally. *)
Theorem execute_rejects_only_before_try (c : Collaborators)
    (editor : option TextEditor) (uri : option Uri) (es0 : list Effect) (ex : Err) :
  fst (execute c editor uri es0) = Rejected ex
  <-> (pickerUri c editor uri = Rejected ex
       \/ exists g, pickerUri c editor uri = Resolved g
                    /\ getBestRepositoryOrShow c g editor title = Rejected ex).
Proof.
  run_execute; split;
    try discriminate;
    try (intros [= <-]; eauto; fail);
    try (intros [[=] | (g & [=] & Hp)]; simplify_eq; congruence).
Qed.

(** X17: when the picker yields a repository whose current branch has a
    non-empty name and the clipboard accepts it, [execute] looks up the
    branch, writes exactly that name to the clipboard, reports nothing
    and completes normally. *)
Theorem copies_branch_name (c : Collaborators) (editor : option TextEditor)
    (uri : option Uri) (es0 : list Effect) (g : option GitUri)
    (repository : Repository) (b : GitBranch) :
  pickerUri c editor uri = Resolved g ->
  getBestRepositoryOrShow c g editor title = Resolved (Some repository) ->
  getBranch c repository = Resolved (Some b) ->
  name b <> "" ->
  writeText c (name b) = Resolved tt ->
  execute c editor uri es0
  = (Resolved tt,
     (es0 ++ opening c editor uri g
      ++ [GetBranch repository; WriteText (name b)])%list).
Proof.
  intros Hg Hrepo Hb Hname Hw.
  destruct b as [n]. cbn [name] in *. destruct n as [|a rest]; [congruence|].
  run_execute; rewrite <- ?app_assoc; try reflexivity; congruence.
Qed.

(** X18: when the picker has yielded a repository and the branch lookup
    or the clipboard write rejects, [execute] logs the error under
    'CopyCurrentBranchCommand', shows the unable-to-copy message and
    completes normally. *)
Theorem failure_is_reported_and_absorbed (c : Collaborators)
    (editor : option TextEditor) (uri : option Uri) (es0 : list Effect)
    (g : option GitUri) (repository : Repository) (ex : Err) :
  pickerUri c editor uri = Resolved g ->
  getBestRepositoryOrShow c g editor title = Resolved (Some repository) ->
  (getBranch c repository = Rejected ex ->
   execute c editor uri es0
   = (Resolved tt,
      (es0 ++ opening c editor uri g
       ++ [GetBranch repository;
           LoggerError ex "CopyCurrentBranchCommand";
           ShowErrorMessage unableToCopy])%list))
  /\ (forall b,
        getBranch c repository = Resolved (Some b) ->
        name b <> "" ->
        writeText c (name b) = Rejected ex ->
        execute c editor uri es0
        = (Resolved tt,
           (es0 ++ opening c editor uri g
            ++ [GetBranch repository;
                WriteText (name b);
                LoggerError ex "CopyCurrentBranchCommand";
                ShowErrorMessage unableToCopy])%list)).
Proof.
  intros Hg Hrepo. split.
  - intros Hb.
    run_execute; rewrite <- ?app_assoc; try reflexivity; congruence.
  - intros b Hb Hname Hw.
    destruct b as [n]. cbn [name] in *. destruct n as [|a rest]; [congruence|].
    run_execute; rewrite <- ?app_assoc; try reflexivity; congruence.
Qed.

(** X19: when the picker yields no repository, [execute] completes
    normally without looking up a branch; when the repository has no
    current branch, or one with an empty name, it looks up the branch
    and stops there.  In neither case is anything written to the
    clipboard, logged or shown. *)
Theorem nothing_to_copy (c : Collaborators) (editor : option TextEditor)
    (uri : option Uri) (es0 : list Effect) (g : option GitUri) :
  pickerUri c editor uri = Resolved g ->
  (getBestRepositoryOrShow c g editor title = Resolved None ->
   execute c editor uri es0 = (Resolved tt, (es0 ++ opening c editor uri g)%list))
  /\ (forall repository,
        getBestRepositoryOrShow c g editor title = Resolved (Some repository) ->
        getBranch c repository = Resolved None
        \/ getBranch c repository = Resolved (Some {| name := "" |}) ->
        execute c editor uri es0
        = (Resolved tt,
           (es0 ++ opening c editor uri g ++ [GetBranch repository])%list)).
Proof.
  intros Hg. split.
  - intros Hrepo.
    run_execute; rewrite <- ?app_assoc; try reflexivity; congruence.
  - intros repository Hrepo [Hb | Hb];
      run_execute; rewrite <- ?app_assoc; try reflexivity; congruence.
Qed.

(** X20: a rejection of [GitUri.fromUri] or of the repository picker
    leaves [execute] before the try block: nothing is logged, shown or
    written, and after a rejection of [GitUri.fromUri] the picker is not
    even opened. *)
Theorem early_failures_are_not_reported (c : Collaborators)
    (editor : option TextEditor) (uri : option Uri) (es0 : list Effect) (ex : Err) :
  (forall u,
      getCommandUri c uri editor = Some u ->
      fromUri c u = Rejected ex ->
      execute c editor uri es0 = (Rejected ex, (es0 ++ [FromUri u])%list))
  /\ (forall g,
        pickerUri c editor uri = Resolved g ->
        getBestRepositoryOrShow c g editor title = Rejected ex ->
        execute c editor uri es0
        = (Rejected ex, (es0 ++ opening c editor uri g)%list)).
Proof.
  split.
  - intros u Hu Hf. run_execute; congruence.
  - intros g Hg Hp.
    run_execute; rewrite <- ?app_assoc; try reflexivity; congruence.
Qed.

(** X21: in every run, [execute] only appends to the calls made so far;
    it writes to the clipboard at most once, and then the non-empty name
    of the current branch of the picked repository; and it shows at most
    one message, the unable-to-copy one, and only in runs that complete
    normally. *)
Theorem writes_only_the_branch_name (c : Collaborators)
    (editor : option TextEditor) (uri : option Uri) (es0 : list Effect) :
  exists es,
    snd (execute c editor uri es0) = (es0 ++ es)%list
    /\ (textsWritten es = []
        \/ exists g repository b,
             pickerUri c editor uri = Resolved g
             /\ getBestRepositoryOrShow c g editor title = Resolved (Some repository)
             /\ getBranch c repository = Resolved (Some b)
             /\ name b <> ""
             /\ textsWritten es = [name b])
    /\ (messagesShown es = []
        \/ messagesShown es = [unableToCopy]
           /\ fst (execute c editor uri es0) = Resolved tt).
Proof.
  run_execute;
    (eexists; split;
     [rewrite <- ?app_assoc; first [exact (eq_sym (app_nil_r _)) | reflexivity]|]);
    (split;
     [ first [ left; reflexivity
             | right; do 3 eexists; repeat split; try eassumption;
               first [reflexivity | discriminate] ]
     | first [ left; reflexivity | right; split; reflexivity ] ]).
Qed.

End CommandProperties.

(** * The further properties at sample inputs *)

Section AtMoreSamples.

Import Sample MoreSamples.

Lemma classifier_raise_leaves_world_witness :
  fst (handleRequestError github (HttpError teapot) None world0)
  = Throw (ProviderRequestClientError (HttpError teapot))
  /\ snd (handleRequestError github (HttpError teapot) None world0) = world0.
Proof.
  split; [reflexivity|].
  apply (classifier_raise_leaves_world github (HttpError teapot) None world0
           (ProviderRequestClientError (HttpError teapot))).
  reflexivity.
Defined.

Lemma classifier_raise_keeps_cause_witness :
  fst (handleRequestError github (AbortError "The user aborted a request.") None world0)
  = Throw (Plain (CancellationError (Some (AbortError "The user aborted a request."))))
  /\ (Plain (CancellationError (Some (AbortError "The user aborted a request.")))
      = Plain (AbortError "The user aborted a request.")
      \/ originalOf
           (Plain (CancellationError (Some (AbortError "The user aborted a request."))))
         = Some (AbortError "The user aborted a request.")).
Proof.
  split; [reflexivity|].
  apply (classifier_raise_keeps_cause github
           (AbortError "The user aborted a request.") None world0).
  reflexivity.
Defined.

Lemma other_client_errors_witness :
  400 <= status teapot < 500
  /\ status teapot <> 401 /\ status teapot <> 403 /\ status teapot <> 404
  /\ status teapot <> 410 /\ status teapot <> 422
  /\ handleRequestError github (HttpError teapot) None world0
     = (Throw (ProviderRequestClientError (HttpError teapot)), world0).
Proof.
  assert (Hrange : 400 <= status teapot < 500) by (cbn; lia).
  assert (H401 : status teapot <> 401) by discriminate.
  assert (H403 : status teapot <> 403) by discriminate.
  assert (H404 : status teapot <> 404) by discriminate.
  assert (H410 : status teapot <> 410) by discriminate.
  assert (H422 : status teapot <> 422) by discriminate.
  repeat (split; [assumption|]).
  exact (other_client_errors github teapot None world0 Hrange H401 H403 H404 H410 H422).
Defined.

Lemma logged_exactly_for_server_errors_witness :
  exists es,
    effects (snd (handleRequestError github (HttpError unavailable) None world0))
    = (effects world0 ++ es)%list
    /\ errorsLogged es = [(HttpError unavailable, None)].
Proof.
  destruct (logged_exactly_for_server_errors github unavailable None world0)
    as (es & Heff & Hlogged & _).
  exists es. split; [exact Heff|].
  apply Hlogged. right; right; reflexivity.
Defined.

Lemma debug_message_shown_iff_witness :
  exists es,
    effects (snd (handleRequestError github (HttpError badGateway) None debugWorld))
    = (effects debugWorld ++ es)%list
    /\ errorMessagesShown es = ["GitHub request failed: upstream request timeout"].
Proof.
  destruct (debug_message_shown_iff github badGateway None debugWorld)
    as (es & Heff & Hshown & _).
  exists es. split; [exact Heff|].
  apply Hshown; [reflexivity | cbn; lia | discriminate | discriminate].
Defined.

Lemma bad_gateway_tracks_provider_on_timeout_witness :
  status badGateway = 502
  /\ fst (handleRequestError github (HttpError badGateway) None debugWorld) = Normal tt
  /\ effects (snd (handleRequestError github (HttpError badGateway) None debugWorld))
     = [LoggerError (HttpError badGateway) None;
        ProviderTrackRequestException github;
        ShowIntegrationRequestTimedOutWarningMessage "GitHub";
        ShowErrorMessage "GitHub request failed: upstream request timeout"].
Proof.
  split; [reflexivity|].
  exact (bad_gateway_tracks_provider_on_timeout github badGateway None debugWorld
           eq_refl).
Defined.

Lemma service_unavailable_tracks_always_witness :
  status unavailable = 503
  /\ fst (handleRequestError github (HttpError unavailable) None debugWorld) = Normal tt
  /\ effects (snd (handleRequestError github (HttpError unavailable) None debugWorld))
     = [LoggerError (HttpError unavailable) None;
        SubscriptionTrackRequestException;
        ShowIntegrationRequestFailed500WarningMessage (failedToRespondText github)].
Proof.
  split; [reflexivity|].
  exact (service_unavailable_tracks_always github unavailable None debugWorld eq_refl).
Defined.

Lemma server_error_without_response_only_logs_witness :
  status bareServerError = 500
  /\ response bareServerError = None
  /\ handleRequestError github (HttpError bareServerError) None world0
     = (Normal tt, appendEffects [LoggerError (HttpError bareServerError) None] world0).
Proof.
  split; [reflexivity|]. split; [reflexivity|].
  apply server_error_without_response_only_logs; reflexivity.
Defined.

Lemma forbidden_is_rate_limit_iff_phrase_witness :
  status (rateLimited "1700000000") = 403
  /\ (exists pre post,
        message (rateLimited "1700000000") = pre +:+ "rate limit" +:+ post)
  /\ fst (handleRequestError github (HttpError (rateLimited "1700000000")) None world0)
     = Throw (ProviderRequestRateLimitError (HttpError (rateLimited "1700000000"))
                (Some "ghp_token") (Some (Js.Num 1700000000))).
Proof.
  assert (Hphrase : exists pre post,
             message (rateLimited "1700000000") = pre +:+ "rate limit" +:+ post)
    by (exists "API ", " exceeded for user"; reflexivity).
  split; [reflexivity|]. split; [exact Hphrase|].
  exact (proj1 (forbidden_is_rate_limit_iff_phrase github (rateLimited "1700000000")
                  None world0 eq_refl) Hphrase).
Defined.

Lemma fetch_rejection_always_raises_witness :
  cancellationRequested (Some tokenOptions) = false
  /\ fst (fetch (Response := string) github url (None : option (RequestInit unit))
            (Some tokenOptions) (Rejects (HttpError badGateway)) world0)
     = Throw (Plain (HttpError badGateway)).
Proof.
  split; [reflexivity|].
  destruct (fetch_rejection_always_raises (Response := string) github url
              (None : option (RequestInit unit)) (Some tokenOptions)
              (HttpError badGateway) world0 eq_refl) as (t & Hrun & _ & Hplain).
  rewrite Hrun. f_equal.
  apply (Hplain badGateway); [reflexivity | cbn; lia].
Defined.

Lemma fetch_effects_in_order_witness :
  cancellationRequested (Some serviceOptions) = false
  /\ exists rest,
       effects (snd (fetch github url (Some acceptJson) (Some serviceOptions)
                       (Resolves "{}") world0))
       = (effects world0 ++ setupEffects url (Some acceptJson) (Some serviceOptions)
          ++ rest)%list
       /\ rest = [ProviderResetRequestExceptionCount github]
       /\ timersCleared (setupEffects (LogScope := string) url (Some acceptJson)
                           (Some serviceOptions) ++ rest)
          = [Some 5000].
Proof.
  split; [reflexivity|].
  destruct (fetch_effects_in_order github url (Some acceptJson) (Some serviceOptions)
              (Resolves "{}") world0 eq_refl) as (rest & Heff & Hrest & _ & Hcleared).
  exists rest. split; [exact Heff|]. split; [exact Hrest | exact Hcleared].
Defined.

Lemma caller_headers_win_witness :
  initHeadersOf (Some acceptJson) !! "Accept" = Some "application/json"
  /\ mergedHeaders (Some acceptJson) (Some tokenOptions) !! "Accept"
     = Some "application/json"
  /\ initHeadersOf (Some acceptJson) !! "User-Agent" = None
  /\ mergedHeaders (Some acceptJson) (Some tokenOptions) !! "User-Agent"
     = Some "GitLens/14.0".
Proof.
  split; [reflexivity|].
  split; [exact (proj1 (caller_headers_win (Some acceptJson) (Some tokenOptions))
                   "Accept" "application/json" eq_refl)|].
  split; [reflexivity|].
  exact (proj1 (proj1 (proj2 (caller_headers_win (Some acceptJson) (Some tokenOptions)))
                  eq_refl)).
Defined.

Lemma service_user_agent_is_sent_witness :
  userAgent serviceOptions = Some (userAgentOf prereleaseContainer desktop)
  /\ initHeadersOf (Some acceptJson) !! "User-Agent" = None
  /\ mergedHeaders (Some acceptJson) (Some serviceOptions) !! "User-Agent"
     = Some "GitLens-Debug/14.0.1 (Visual Studio Code/1.80.0; linux)".
Proof.
  split; [reflexivity|]. split; [reflexivity|].
  exact (proj1 (service_user_agent_is_sent prereleaseContainer desktop
                  (Some acceptJson) serviceOptions eq_refl eq_refl)).
Defined.

Lemma copies_branch_name_witness :
  CopyCurrentBranch.pickerUri CopyCurrentBranch.onMain None (Some "file:///repo/a.ts")
  = CopyCurrentBranch.Resolved (Some "git:file:///repo/a.ts")
  /\ CopyCurrentBranch.execute CopyCurrentBranch.onMain None (Some "file:///repo/a.ts") []
     = (CopyCurrentBranch.Resolved tt,
        [CopyCurrentBranch.FromUri "file:///repo/a.ts";
         CopyCurrentBranch.GetBestRepositoryOrShow (Some "git:file:///repo/a.ts") None
           "Copy Current Branch Name";
         CopyCurrentBranch.GetBranch "/repo";
         CopyCurrentBranch.WriteText "main"]).
Proof.
  split; [reflexivity|].
  apply (copies_branch_name CopyCurrentBranch.onMain None (Some "file:///repo/a.ts") []
           (Some "git:file:///repo/a.ts") "/repo"
           {| CopyCurrentBranch.name := "main" |});
    first [reflexivity | discriminate].
Defined.

Lemma failure_is_reported_and_absorbed_witness :
  CopyCurrentBranch.getBranch CopyCurrentBranch.branchLookupFails "/repo"
  = CopyCurrentBranch.Rejected "git exited with code 128"
  /\ CopyCurrentBranch.execute CopyCurrentBranch.branchLookupFails None None []
     = (CopyCurrentBranch.Resolved tt,
        [CopyCurrentBranch.GetBestRepositoryOrShow None None "Copy Current Branch Name";
         CopyCurrentBranch.GetBranch "/repo";
         CopyCurrentBranch.LoggerError "git exited with code 128"
           "CopyCurrentBranchCommand";
         CopyCurrentBranch.ShowErrorMessage
           "Unable to copy current branch name. See output channel for more details"]).
Proof.
  split; [reflexivity|].
  apply (proj1 (failure_is_reported_and_absorbed CopyCurrentBranch.branchLookupFails
                  None None [] None "/repo" "git exited with code 128"
                  eq_refl eq_refl)).
  reflexivity.
Defined.

Lemma nothing_to_copy_witness :
  CopyCurrentBranch.getBestRepositoryOrShow CopyCurrentBranch.pickerDismissed None None
    CopyCurrentBranch.title
  = CopyCurrentBranch.Resolved None
  /\ CopyCurrentBranch.execute CopyCurrentBranch.pickerDismissed None None []
     = (CopyCurrentBranch.Resolved tt,
        [CopyCurrentBranch.GetBestRepositoryOrShow None None "Copy Current Branch Name"]).
Proof.
  split; [reflexivity|].
  apply (proj1 (nothing_to_copy CopyCurrentBranch.pickerDismissed None None [] None
                  eq_refl)).
  reflexivity.
Defined.

Lemma early_failures_are_not_reported_witness :
  CopyCurrentBranch.getBestRepositoryOrShow CopyCurrentBranch.pickerFails None None
    CopyCurrentBranch.title
  = CopyCurrentBranch.Rejected "no repositories"
  /\ CopyCurrentBranch.execute CopyCurrentBranch.pickerFails None None []
     = (CopyCurrentBranch.Rejected "no repositories",
        [CopyCurrentBranch.GetBestRepositoryOrShow None None "Copy Current Branch Name"]).
Proof.
  split; [reflexivity|].
  apply (proj2 (early_failures_are_not_reported CopyCurrentBranch.pickerFails None None
                  [] "no repositories") None);
    reflexivity.
Defined.

End AtMoreSamples.
